(** * Movie ticket booking: seat inventory and booking engine

    A shallow embedding of [SeatMapService] and [BookingService] of
    [code.py] together with the two SQLite tables they read and write
    ([ticket] and [ticket_seat]), and the properties of the booking and
    cancellation protocol proved over it.

    Conventions.
    - Python integers are [Z].  The [REAL] columns [total] and [price] only
      ever hold integer prices and their sums and differences, all far below
      2^53 and so exact as floating-point numbers; they are modelled as [Z]
      as well.
    - [ticket] is a rowid table read and written by its primary key
      ([WHERE id = ?], [JOIN ... ON ts.ticket_id = t.id]); it is a finite map
      from the id to the remaining columns.
    - [ticket_seat] is scanned by non-key columns only; it is the list of its
      rows in rowid order, with the [UNIQUE(show_id, row, col)] constraint
      checked by every insert.
    - [SeatMapService.locks] is a Python dict; only its key set matters to a
      single thread of control.
    - Effects are threaded through a state and exception monad; lock and
      transaction boundaries are recorded in a trace.
    - Calls run one after the other: a call runs to its end before the next
      one starts.  Interleavings of threads are outside this development. *)

From stdpp Require Import gmap list strings sorting.

Local Open Scope Z_scope.

(** ** Rows of the two tables *)

Inductive Status := BOOKED | CANCELLED.

#[global] Instance Status_eq_dec : EqDecision Status.
Proof. solve_decision. Defined.

(** A row of [ticket], without its primary key. *)
Record Ticket := mkTicket {
  t_show_id : Z;
  t_user : string;
  t_mobile : string;
  t_status : Status;
  t_total : Z
}.

(** A row of [ticket_seat]. *)
Record TicketSeat := mkTicketSeat {
  ts_id : Z;
  ts_ticket_id : Z;
  ts_show_id : Z;
  ts_row : Z;
  ts_col : Z;
  ts_price : Z
}.

Record DB := mkDB {
  ticket : gmap Z Ticket;
  ticket_seat : list TicketSeat
}.

Definition empty_db : DB := mkDB ∅ [].

(** ** Exceptions *)

(** The messages of the [ValueError]s raised by the booking service (the
    seat label of the message is kept as the pair it is formatted from). *)
Inductive message :=
  | NoSeatsProvided
  | AlreadyBooked (row col : Z)
  | BecameUnavailable (row col : Z)
  | TicketNotBooked.

(** [ChrError] is what [chr] raises for an argument outside
    [range(0x110000)] (a [ValueError] of its own or, far outside, an
    [OverflowError]); [IntegrityError] is [sqlite3.IntegrityError]. *)
Inductive exn :=
  | ValueError (m : message)
  | ChrError
  | IntegrityError.

Inductive result (A : Type) :=
  | Ok (a : A)
  | Raise (e : exn).
Arguments Ok {A} a.
Arguments Raise {A} e.



(** ** State, trace and monad *)

Inductive event :=
  | Acquire (show_id : Z)
  | Release (show_id : Z)
  | Begin
  | Commit
  | Rollback.

Record state := mkState {
  db : DB;
  locks : gset Z;
  trace : list event
}.

Definition init_state : state := mkState empty_db ∅ [].

Definition M (A : Type) : Type := state → state * result A.

Definition ret {A} (a : A) : M A := λ st, (st, Ok a).

Definition raise {A} (e : exn) : M A := λ st, (st, Raise e).

Definition bind {A B} (m : M A) (k : A → M B) : M B :=
  λ st, match m st with
        | (st', Ok a) => k a st'
        | (st', Raise e) => (st', Raise e)
        end.

Notation "'let!' x := m 'in' k" := (bind m (λ x, k))
  (at level 10, x name, m at level 100, k at level 200, only parsing).
Notation "'let!' ' pat := m 'in' k" :=
  (bind m (λ x, match x with pat => k end))
  (at level 10, pat pattern, m at level 100, k at level 200, only parsing).

(** A [SELECT]: reads the database. *)
Definition query {A} (q : DB → A) : M A := λ st, (st, Ok (q (db st))).

Definition set_db (d : DB) (st : state) : state :=
  mkState d (locks st) (trace st).

Definition emit (ev : event) (st : state) : state :=
  mkState (db st) (locks st) (trace st ++ [ev]).

(** ** The store *)

(** [cursor.fetchone()]: the first row of the result, if any. *)
Definition fetchone {A} (rows : list A) : option A := head rows.

(** The rowid of an inserted row whose [INTEGER PRIMARY KEY] is not given:
    one more than the largest rowid of the table, 1 in an empty table.
    (Rowids stay far below 2^63 - 1, where SQLite would pick at random.) *)
Definition next_rowid (ids : list Z) : Z :=
  match ids with
  | [] => 1
  | i :: ids' => foldr Z.max i ids' + 1
  end.

(** [ticket_seat ts JOIN ticket t ON ts.ticket_id = t.id]: [t.id] is the
    primary key, so a seat row joins with at most one ticket. *)
Definition join_ticket (d : DB) : list (TicketSeat * Ticket) :=
  omap (λ ts, (λ t, (ts, t)) <$> ticket d !! ts_ticket_id ts) (ticket_seat d).

(** [INSERT INTO ticket (show_id, user, mobile, status, total) VALUES ...],
    followed by [cursor.lastrowid]. *)
Definition insert_ticket (t : Ticket) : M Z := λ st,
  let d := db st in
  let id := next_rowid (elements (dom (ticket d))) in
  (set_db (mkDB (<[id := t]> (ticket d)) (ticket_seat d)) st, Ok id).

(** [INSERT INTO ticket_seat (ticket_id, show_id, row, col, price) VALUES ...]:
    the insert is refused with [sqlite3.IntegrityError] when it would break
    [UNIQUE(show_id, row, col)]. *)
Definition insert_ticket_seat (ticket_id show_id row col price : Z) : M unit :=
  λ st,
  let d := db st in
  if bool_decide (Exists (λ ts, ts_show_id ts = show_id ∧ ts_row ts = row
                                ∧ ts_col ts = col) (ticket_seat d))
  then (st, Raise IntegrityError)
  else
    let id := next_rowid (ts_id <$> ticket_seat d) in
    (set_db (mkDB (ticket d)
               (ticket_seat d
                ++ [mkTicketSeat id ticket_id show_id row col price])) st,
     Ok tt).

(** [DELETE FROM ticket_seat WHERE ticket_id = ? AND row = ? AND col = ?] *)
Definition delete_ticket_seat (ticket_id row col : Z) : M unit := λ st,
  let d := db st in
  (set_db (mkDB (ticket d)
             (filter (λ ts, ¬ (ts_ticket_id ts = ticket_id ∧ ts_row ts = row
                               ∧ ts_col ts = col)) (ticket_seat d))) st,
   Ok tt).

(** [SET status = 'CANCELLED', total = 0] *)
Definition set_cancelled (t : Ticket) : Ticket :=
  mkTicket (t_show_id t) (t_user t) (t_mobile t) CANCELLED 0.

(** [SET total = ?] *)
Definition set_total (new_total : Z) (t : Ticket) : Ticket :=
  mkTicket (t_show_id t) (t_user t) (t_mobile t) (t_status t) new_total.

(** [UPDATE ticket SET status = 'CANCELLED', total = 0 WHERE id = ?] *)
Definition update_ticket_cancelled (ticket_id : Z) : M unit := λ st,
  let d := db st in
  (set_db (mkDB (alter set_cancelled ticket_id (ticket d)) (ticket_seat d)) st,
   Ok tt).

(** [UPDATE ticket SET total = ? WHERE id = ?] *)
Definition update_ticket_total (new_total ticket_id : Z) : M unit := λ st,
  let d := db st in
  (set_db (mkDB (alter (set_total new_total) ticket_id (ticket d))
             (ticket_seat d)) st,
   Ok tt).

(** ** SeatMapService *)

(** [get_lock]: the lock of a show is created on first use and kept. *)
Definition get_lock (show_id : Z) : M Z := λ st,
  if bool_decide (show_id ∈ locks st) then (st, Ok show_id)
  else (mkState (db st) ({[show_id]} ∪ locks st) (trace st), Ok show_id).

Definition get_price (row : Z) : Z :=
  if bool_decide (row ∈ [0; 1; 2]) then 100 else 150.

Inductive SeatType := Standard | Premium.

Definition get_seat_type (row : Z) : SeatType :=
  if bool_decide (row ∈ [0; 1; 2]) then Standard else Premium.

(** The rows of the query of [build_seat_map]:
    [SELECT ts.row, ts.col FROM ticket_seat ts JOIN ticket t
     ON ts.ticket_id = t.id WHERE ts.show_id = ? AND t.status = 'BOOKED'] *)
Definition booked_seats (d : DB) (show_id : Z) : list (Z * Z) :=
  (λ p, (ts_row p.1, ts_col p.1))
    <$> filter (λ p, ts_show_id p.1 = show_id ∧ t_status p.2 = BOOKED)
          (join_ticket d).

(** [seat_map[row][col] = False] *)
Definition mark_occupied (seat_map : list (list bool)) (row col : Z)
  : list (list bool) :=
  alter (λ r, <[Z.to_nat col := false]> r) (Z.to_nat row) seat_map.

Definition build_seat_map (d : DB) (show_id rows cols : Z)
  : list (list bool) :=
  let seat_map := replicate (Z.to_nat rows) (replicate (Z.to_nat cols) true) in
  foldl (λ seat_map '(row, col),
           if bool_decide (0 ≤ row < rows ∧ 0 ≤ col < cols)
           then mark_occupied seat_map row col
           else seat_map)
        seat_map (booked_seats d show_id).

(** ** BookingService *)

(** [with self.transaction() as cursor]: the body runs on the open
    transaction; it is committed when the body returns and rolled back,
    with the exception passed on, when the body raises. *)
Definition transaction {A} (body : M A) : M A := λ st,
  match body (emit Begin st) with
  | (st', Ok a) => (emit Commit st', Ok a)
  | (st', Raise e) => (emit Rollback (set_db (db st) st'), Raise e)
  end.

(** [with lock]: the lock is released on every way out of the body. *)
Definition with_lock {A} (lock : Z) (body : M A) : M A := λ st,
  match body (emit (Acquire lock) st) with
  | (st', r) => (emit (Release lock) st', r)
  end.

(** The rows of the query of [is_seat_available]:
    [SELECT 1 FROM ticket_seat ts JOIN ticket t ON ts.ticket_id = t.id
     WHERE ts.show_id = ? AND ts.row = ? AND ts.col = ?
     AND t.status = 'BOOKED'] *)
Definition booked_seat_rows (d : DB) (show_id row col : Z)
  : list (TicketSeat * Ticket) :=
  filter (λ p, ts_show_id p.1 = show_id ∧ ts_row p.1 = row
               ∧ ts_col p.1 = col ∧ t_status p.2 = BOOKED)
         (join_ticket d).

Definition is_seat_available (d : DB) (show_id row col : Z) : bool :=
  match fetchone (booked_seat_rows d show_id row col) with
  | None => true
  | Some _ => false
  end.

(** [recheck_seats] returns [(False, (row, col))] for the first seat that is
    taken and [(True, None)] when there is none: [Some (row, col)] and
    [None] here. *)
Fixpoint recheck_seats (show_id : Z) (seats : list (Z * Z))
  : M (option (Z * Z)) :=
  match seats with
  | [] => ret None
  | (row, col) :: seats' =>
      let! available := query (λ d, is_seat_available d show_id row col) in
      if negb available then ret (Some (row, col))
      else recheck_seats show_id seats'
  end.

(** The exception raised by [raise ValueError(f"Seat {chr(65+row)}{col+1} ...")]:
    [chr] itself raises when [65 + row] is not a code point. *)
Definition seat_error (msg : Z → Z → message) (row col : Z) : exn :=
  if bool_decide (0 ≤ 65 + row < 1114112) then ValueError (msg row col)
  else ChrError.

Section Pricing.

(** [self.seat_map_service.get_price], the pricing policy in force when
    the booking is made. *)
Variable price_of : Z → Z.

(** The first loop of [book_seats]: availability of every seat, prices and
    their sum. *)
Fixpoint validate_seats (show_id : Z) (seats : list (Z * Z))
    (total_price : Z) (seat_details : list (Z * Z * Z))
  : M (Z * list (Z * Z * Z)) :=
  match seats with
  | [] => ret (total_price, seat_details)
  | (row, col) :: seats' =>
      let! available := query (λ d, is_seat_available d show_id row col) in
      if negb available then raise (seat_error AlreadyBooked row col)
      else
        let price := price_of row in
        validate_seats show_id seats' (total_price + price)
          (seat_details ++ [(row, col, price)])
  end.

(** The second loop of [book_seats]. *)
Fixpoint insert_seats (ticket_id show_id : Z)
    (seat_details : list (Z * Z * Z)) : M unit :=
  match seat_details with
  | [] => ret tt
  | (row, col, price) :: seat_details' =>
      let! _ := insert_ticket_seat ticket_id show_id row col price in
      insert_seats ticket_id show_id seat_details'
  end.

Definition book_seats_with (show_id : Z) (user_name user_mobile : string)
    (seats : list (Z * Z)) (rows cols : Z)
  : M (Z * Z * list (Z * Z * Z)) :=
  if bool_decide (seats = []) then raise (ValueError NoSeatsProvided)
  else
    let! '(total_price, seat_details) := validate_seats show_id seats 0 [] in
    let! lock := get_lock show_id in
    with_lock lock
      (transaction
         (let! occupied_seat := recheck_seats show_id seats in
          match occupied_seat with
          | Some (row, col) => raise (seat_error BecameUnavailable row col)
          | None =>
              let! ticket_id :=
                insert_ticket
                  (mkTicket show_id user_name user_mobile BOOKED total_price) in
              let! _ := insert_seats ticket_id show_id seat_details in
              ret (ticket_id, total_price, seat_details)
          end)).

End Pricing.

(** [book_seats] under the pricing policy of the source. *)
Definition book_seats := book_seats_with get_price.

(** [SELECT t.total, t.show_id FROM ticket t
     WHERE t.id = ? AND t.status = 'BOOKED'] *)
Definition select_booked_ticket (d : DB) (ticket_id : Z) : list (Z * Z) :=
  match ticket d !! ticket_id with
  | Some t => if bool_decide (t_status t = BOOKED)
              then [(t_total t, t_show_id t)] else []
  | None => []
  end.

(** [SELECT price FROM ticket_seat
     WHERE ticket_id = ? AND row = ? AND col = ?] *)
Definition select_price (d : DB) (ticket_id row col : Z) : list Z :=
  ts_price <$> filter (λ ts, ts_ticket_id ts = ticket_id ∧ ts_row ts = row
                             ∧ ts_col ts = col) (ticket_seat d).

(** [SELECT COUNT( * ) FROM ticket_seat WHERE ticket_id = ?] *)
Definition count_seats (d : DB) (ticket_id : Z) : Z :=
  Z.of_nat (length (filter (λ ts, ts_ticket_id ts = ticket_id)
                      (ticket_seat d))).

(** The refund loop of [cancel_seats]. *)
Fixpoint refund_loop (ticket_id : Z) (seats_to_cancel : list (Z * Z))
    (refund_amount : Z) : M Z :=
  match seats_to_cancel with
  | [] => ret refund_amount
  | (row, col) :: rest =>
      let! price_result :=
        query (λ d, fetchone (select_price d ticket_id row col)) in
      match price_result with
      | Some price => refund_loop ticket_id rest (refund_amount + price)
      | None => refund_loop ticket_id rest refund_amount
      end
  end.

(** The delete loop of [cancel_seats]. *)
Fixpoint delete_loop (ticket_id : Z) (seats_to_cancel : list (Z * Z))
  : M unit :=
  match seats_to_cancel with
  | [] => ret tt
  | (row, col) :: rest =>
      let! _ := delete_ticket_seat ticket_id row col in
      delete_loop ticket_id rest
  end.

Definition cancel_seats (ticket_id : Z) (seats_to_cancel : list (Z * Z))
  : M Z :=
  transaction
    (let! result := query (λ d, fetchone (select_booked_ticket d ticket_id)) in
     match result with
     | None => raise (ValueError TicketNotBooked)
     | Some (total_amount, show_id) =>
         let! refund_amount := refund_loop ticket_id seats_to_cancel 0 in
         let! _ := delete_loop ticket_id seats_to_cancel in
         let! remaining_seats := query (λ d, count_seats d ticket_id) in
         let! _ :=
           if bool_decide (remaining_seats = 0)
           then update_ticket_cancelled ticket_id
           else update_ticket_total (total_amount - refund_amount) ticket_id in
         ret refund_amount
     end).

(** [get_user_seats]: [SELECT row, col FROM ticket_seat WHERE ticket_id = ?] *)
Definition get_user_seats (d : DB) (ticket_id : Z) : list (Z * Z) :=
  (λ ts, (ts_row ts, ts_col ts))
    <$> filter (λ ts, ts_ticket_id ts = ticket_id) (ticket_seat d).

(** ** Runs of the booking service *)

Inductive op :=
  | BookSeats (price_of : Z → Z) (show_id : Z) (user_name user_mobile : string)
      (seats : list (Z * Z)) (rows cols : Z)
  | CancelSeats (ticket_id : Z) (seats_to_cancel : list (Z * Z)).

Definition run_op (st : state) (o : op) : state :=
  match o with
  | BookSeats price_of show_id user_name user_mobile seats rows cols =>
      (book_seats_with price_of show_id user_name user_mobile seats rows cols
         st).1
  | CancelSeats ticket_id seats_to_cancel =>
      (cancel_seats ticket_id seats_to_cancel st).1
  end.

Definition run (ops : list op) (st : state) : state := foldl run_op st ops.

(** The cell [seat_map[row][col]] of a grid. *)
Definition cell (seat_map : list (list bool)) (row col : Z) : option bool :=
  seat_map !! Z.to_nat row ≫= (λ r, r !! Z.to_nat col).

(** A grid of [rows] lists of [cols] cells. *)
Definition well_shaped (rows cols : nat) (seat_map : list (list bool)) : Prop :=
  length seat_map = rows ∧ Forall (λ r, length r = cols) seat_map.

(** ** Vocabulary of the statements *)

Definition sum_prices (prices : list Z) : Z := foldr Z.add 0 prices.

(** The [(row, col, price)] entry of a requested seat. *)
Definition seat_detail (price_of : Z → Z) (seat : Z * Z) : Z * Z * Z :=
  (seat.1, seat.2, price_of seat.1).

(** The columns of a [ticket_seat] row other than its rowid. *)
Definition ts_columns (ts : TicketSeat) : Z * Z * Z * Z * Z :=
  (ts_ticket_id ts, ts_show_id ts, ts_row ts, ts_col ts, ts_price ts).

(** The columns of the row inserted for an entry of [seat_details]. *)
Definition detail_columns (ticket_id show_id : Z) (detail : Z * Z * Z)
  : Z * Z * Z * Z * Z :=
  (ticket_id, show_id, detail.1.1, detail.1.2, detail.2).

(** The columns under [UNIQUE(show_id, row, col)]. *)
Definition seat_key (ts : TicketSeat) : Z * Z * Z :=
  (ts_show_id ts, ts_row ts, ts_col ts).

(** The rows of [ticket_seat] owned by a ticket. *)
Definition seats_of_ticket (d : DB) (ticket_id : Z) : list TicketSeat :=
  filter (λ ts, ts_ticket_id ts = ticket_id) (ticket_seat d).

(** [FOREIGN KEY (ticket_id) REFERENCES ticket (id)] *)
Definition foreign_keys_ok (d : DB) : Prop :=
  ∀ ts, ts ∈ ticket_seat d → is_Some (ticket d !! ts_ticket_id ts).

(** The price column of the row that [cancel_seats] finds for a requested
    pair: the row of this ticket at that pair, if the ticket has one. *)
Definition stored_price (d : DB) (ticket_id : Z) (seat : Z * Z) : option Z :=
  fetchone (select_price d ticket_id seat.1 seat.2).

(** The rows a cancellation of [seats_to_cancel] on [ticket_id] deletes. *)
Definition cancelled_row (ticket_id : Z) (seats_to_cancel : list (Z * Z))
    (ts : TicketSeat) : Prop :=
  ts_ticket_id ts = ticket_id ∧ (ts_row ts, ts_col ts) ∈ seats_to_cancel.

(** The four ways a call of [book_seats] ends, from state [st]: two
    [ValueError]s raised before the lock is looked up, an insert refused by
    the store inside the transaction, and the commit. *)
Inductive book_outcome (price_of : Z → Z) (show_id : Z)
    (user_name user_mobile : string) (seats : list (Z * Z)) (st : state)
  : state → result (Z * Z * list (Z * Z * Z)) → Prop :=
  | book_no_seats :
      seats = [] →
      book_outcome price_of show_id user_name user_mobile seats st
        st (Raise (ValueError NoSeatsProvided))
  | book_taken s :
      seats ≠ [] → s ∈ seats →
      is_seat_available (db st) show_id s.1 s.2 = false →
      book_outcome price_of show_id user_name user_mobile seats st
        st (Raise (seat_error AlreadyBooked s.1 s.2))
  | book_refused st' :
      seats ≠ [] →
      Forall (λ s, is_seat_available (db st) show_id s.1 s.2 = true) seats →
      ¬ (NoDup seats
         ∧ ∀ s, s ∈ seats →
                (show_id, s.1, s.2) ∉ seat_key <$> ticket_seat (db st)) →
      db st' = db st →
      locks st' = {[show_id]} ∪ locks st →
      trace st'
      = trace st ++ [Acquire show_id; Begin; Rollback; Release show_id] →
      book_outcome price_of show_id user_name user_mobile seats st
        st' (Raise IntegrityError)
  | book_committed st' ticket_id total new_seats :
      seats ≠ [] →
      Forall (λ s, is_seat_available (db st) show_id s.1 s.2 = true) seats →
      ticket_id = next_rowid (elements (dom (ticket (db st)))) →
      total = sum_prices (price_of ∘ fst <$> seats) →
      ticket (db st')
      = <[ticket_id := mkTicket show_id user_name user_mobile BOOKED total]>
          (ticket (db st)) →
      ticket_seat (db st') = ticket_seat (db st) ++ new_seats →
      ts_columns <$> new_seats
      = (λ s, (ticket_id, show_id, s.1, s.2, price_of s.1)) <$> seats →
      NoDup (seat_key <$> new_seats) →
      (∀ k, k ∈ seat_key <$> new_seats →
            k ∉ seat_key <$> ticket_seat (db st)) →
      locks st' = {[show_id]} ∪ locks st →
      trace st'
      = trace st ++ [Acquire show_id; Begin; Commit; Release show_id] →
      book_outcome price_of show_id user_name user_mobile seats st
        st' (Ok (ticket_id, total, seat_detail price_of <$> seats)).

(** The two ways a call of [cancel_seats] ends, from state [st]. *)
Inductive cancel_outcome (ticket_id : Z) (seats_to_cancel : list (Z * Z))
    (st : state) : state → result Z → Prop :=
  | cancel_not_booked st' :
      (∀ t, ticket (db st) !! ticket_id = Some t → t_status t ≠ BOOKED) →
      db st' = db st →
      locks st' = locks st →
      trace st' = trace st ++ [Begin; Rollback] →
      cancel_outcome ticket_id seats_to_cancel st
        st' (Raise (ValueError TicketNotBooked))
  | cancel_committed st' t refund :
      ticket (db st) !! ticket_id = Some t →
      t_status t = BOOKED →
      refund
      = sum_prices (omap (stored_price (db st) ticket_id) seats_to_cancel) →
      ticket_seat (db st')
      = filter (λ ts, ¬ cancelled_row ticket_id seats_to_cancel ts)
          (ticket_seat (db st)) →
      ticket (db st')
      = <[ticket_id :=
            if decide (seats_of_ticket (db st') ticket_id = [])
            then set_cancelled t
            else set_total (t_total t - refund) t]> (ticket (db st)) →
      locks st' = locks st →
      trace st' = trace st ++ [Begin; Commit] →
      cancel_outcome ticket_id seats_to_cancel st st' (Ok refund).

(** What holds of the store in every state of a run (see
    [store_inv_run]): every seat row is owned by a ticket whose status is
    [BOOKED], and no two seat rows share [(show_id, row, col)]. *)
Definition store_inv (d : DB) : Prop :=
  (∀ ts, ts ∈ ticket_seat d →
         ∃ t, ticket d !! ts_ticket_id ts = Some t ∧ t_status t = BOOKED)
  ∧ NoDup (seat_key <$> ticket_seat d).

(** The seat grid of every show, as the catalog ([show JOIN screen]) has
    it: [(rows, cols)]. *)
Definition in_grid (dims : Z → Z * Z) (show_id : Z) (seat : Z * Z) : Prop :=
  0 ≤ seat.1 < (dims show_id).1 ∧ 0 ≤ seat.2 < (dims show_id).2.

(** A call that respects the precondition on the bounds: it passes the
    grid of the show and asks for seats inside it. *)
Definition op_in_bounds (dims : Z → Z * Z) (o : op) : Prop :=
  match o with
  | BookSeats _ show_id _ _ seats rows cols =>
      (rows, cols) = dims show_id ∧ Forall (in_grid dims show_id) seats
  | CancelSeats _ _ => True
  end.

(** The ticket is there and its seat rows carry the price that the policy
    [price_of] gives their row. *)
Definition priced (price_of : Z → Z) (ticket_id : Z) (st : state) : Prop :=
  is_Some (ticket (db st) !! ticket_id)
  ∧ ∀ ts, ts ∈ ticket_seat (db st) → ts_ticket_id ts = ticket_id →
          ts_price ts = price_of (ts_row ts).

(** ** Example states *)

(** Show 5, seats A1 and D4 booked as ticket 1. *)
Definition st_a1_d4 : state :=
  mkState
    (mkDB {[1 := mkTicket 5 "asha" "9876543210" BOOKED 250]}
       [mkTicketSeat 1 1 5 0 0 100; mkTicketSeat 2 1 5 3 3 150])
    {[5]} [Acquire 5; Begin; Commit; Release 5].

(** Then A1 cancelled. *)
Definition st_d4 : state :=
  mkState
    (mkDB {[1 := mkTicket 5 "asha" "9876543210" BOOKED 150]}
       [mkTicketSeat 2 1 5 3 3 150])
    {[5]} [Acquire 5; Begin; Commit; Release 5; Begin; Commit].

(** Then D4 cancelled. *)
Definition st_none : state :=
  mkState
    (mkDB {[1 := mkTicket 5 "asha" "9876543210" CANCELLED 0]} [])
    {[5]}
    [Acquire 5; Begin; Commit; Release 5; Begin; Commit; Begin; Commit].

(** Show 1 on a 7 x 7 grid, row index 7 booked. *)
Definition st_row7 : state :=
  mkState
    (mkDB {[1 := mkTicket 1 "asha" "9876543210" BOOKED 150]}
       [mkTicketSeat 1 1 1 7 0 150])
    {[1]} [Acquire 1; Begin; Commit; Release 1].


(** Show 1, seats A1 and A2 booked as ticket 1. *)
Definition st_a1_a2 : state :=
  mkState
    (mkDB {[1 := mkTicket 1 "asha" "9876543210" BOOKED 200]}
       [mkTicketSeat 1 1 1 0 0 100; mkTicketSeat 2 1 1 0 1 100])
    {[1]} [Acquire 1; Begin; Commit; Release 1].

(** Then A1 cancelled three times in one call. *)
Definition st_overdrawn : state :=
  mkState
    (mkDB {[1 := mkTicket 1 "asha" "9876543210" BOOKED (-100)]}
       [mkTicketSeat 2 1 1 0 1 100])
    {[1]} [Acquire 1; Begin; Commit; Release 1; Begin; Commit].

(** ** More invariants of a run *)

(** Every seat row is on the show of the ticket that owns it. *)
Definition same_show (d : DB) : Prop :=
  ∀ ts t, ts ∈ ticket_seat d → ticket d !! ts_ticket_id ts = Some t →
          ts_show_id ts = t_show_id t.

(** The total of a [BOOKED] ticket is the sum of the prices of its seat
    rows; the total of a [CANCELLED] ticket is 0. *)
Definition totals_ok (d : DB) : Prop :=
  ∀ ticket_id t, ticket d !! ticket_id = Some t →
    t_total t
    = match t_status t with
      | BOOKED => sum_prices (ts_price <$> seats_of_ticket d ticket_id)
      | CANCELLED => 0
      end.

(** A cancellation that names no seat twice. *)
Definition op_distinct (o : op) : Prop :=
  match o with
  | BookSeats _ _ _ _ _ _ _ => True
  | CancelSeats _ seats_to_cancel => NoDup seats_to_cancel
  end.

(** The [(row, col)] of a seat row. *)
Definition seat_pos (ts : TicketSeat) : Z * Z := (ts_row ts, ts_col ts).

(** [ORDER BY row, col] *)
Definition seat_le (a b : Z * Z) : Prop :=
  a.1 < b.1 ∨ (a.1 = b.1 ∧ a.2 ≤ b.2).

#[global] Instance seat_le_dec : RelDecision seat_le.
Proof. intros a b. unfold seat_le. apply _. Defined.

(** [get_seats_for_ticket]:
    [SELECT row, col FROM ticket_seat WHERE ticket_id = ? ORDER BY row, col] *)
Definition get_seats_for_ticket (d : DB) (ticket_id : Z) : list (Z * Z) :=
  merge_sort seat_le (get_user_seats d ticket_id).

(** A booking made under the pricing policy of the source. *)
Definition op_source (o : op) : Prop :=
  match o with
  | BookSeats price_of _ _ _ _ _ _ => price_of = get_price
  | CancelSeats _ _ => True
  end.

(** Every seat row carries the price [get_price] gives its row. *)
Definition all_priced (d : DB) : Prop :=
  ∀ ts, ts ∈ ticket_seat d → ts_price ts = get_price (ts_row ts).

(** ** show_seat_map *)

#[global] Instance SeatType_eq_dec : EqDecision SeatType.
Proof. solve_decision. Defined.

(** The marks of the seat layout: "X", the white square and the black
    square. *)
Inductive mark := YourBooking | Available | Booked.

#[global] Instance mark_eq_dec : EqDecision mark.
Proof. solve_decision. Defined.

(** The mark of one cell.  [user_seats] is [None] for the default argument;
    [None] as a result stands for the [IndexError] of [seat_map[row][col]]
    outside the grid. *)
Definition seat_mark (seat_map : list (list bool))
    (user_seats : option (list (Z * Z))) (row col : Z) : option mark :=
  if bool_decide (default [] user_seats ≠ []
                  ∧ (row, col) ∈ default [] user_seats)
  then Some YourBooking
  else match cell seat_map row col with
       | Some true => Some Available
       | Some false => Some Booked
       | None => None
       end.

(** What [show_seat_map] prints for the cells, row by row: the mark and the
    letter of the seat type ([Standard] for "S", [Premium] for "P"). *)
Definition show_seat_map (d : DB) (show_id rows cols : Z)
    (user_seats : option (list (Z * Z)))
  : list (list (option mark * SeatType)) :=
  let seat_map := build_seat_map d show_id rows cols in
  (λ row, (λ col, (seat_mark seat_map user_seats row col, get_seat_type row))
            <$> seqZ 0 cols)
    <$> seqZ 0 rows.

(** The cells of the layout in the order [show_seat_map] goes through them:
    [for row in range(rows): for col in range(cols)]. *)
Definition grid_cells (rows cols : Z) : list (Z * Z) :=
  mjoin ((λ row, (λ col, (row, col)) <$> seqZ 0 cols) <$> seqZ 0 rows).

(** The price of a seat type under the policy of the source. *)
Definition tier_price (seat_type : SeatType) : Z :=
  match seat_type with Standard => 100 | Premium => 150 end.

(** ** show_report *)

(** The rows both queries of [show_report] aggregate:
    [FROM ticket_seat ts JOIN ticket t
     ON ts.ticket_id = t.id AND t.status = 'BOOKED' WHERE ts.show_id = ?] *)
Definition report_rows (d : DB) (show_id : Z) : list TicketSeat :=
  fst <$> filter (λ p, t_status p.2 = BOOKED ∧ ts_show_id p.1 = show_id)
            (join_ticket d).

(** [SUM]: [NULL] over no rows. *)
Definition sql_sum (xs : list Z) : option Z :=
  match xs with
  | [] => None
  | _ => Some (sum_prices xs)
  end.

(** [x if x else 0] on a number. *)
Definition or_zero (x : Z) : Z := if bool_decide (x ≠ 0) then x else 0.

(** [(booked_seats, revenue)] of a show:
    [SELECT COUNT(ts.id), COALESCE(SUM(ts.price), 0)], each read with
    [result[i] if result[i] else 0]. *)
Definition show_totals (d : DB) (show_id : Z) : Z * Z :=
  let rows := report_rows d show_id in
  let result := (Z.of_nat (length rows),
                 default 0 (sql_sum (ts_price <$> rows))) in
  (or_zero result.1, or_zero result.2).

(** [CASE WHEN ts.row IN (0, 1, 2) THEN 'Standard' ELSE 'Premium' END] *)
Definition sql_seat_type (row : Z) : SeatType :=
  if bool_decide (row ∈ [0; 1; 2]) then Standard else Premium.

(** [seat_breakdown]: [(seat_type, count, type_revenue)] for each seat type
    that has rows, [GROUP BY] the seat type (SQLite lists the groups in the
    order of the key, 'Premium' before 'Standard'). *)
Definition seat_breakdown (d : DB) (show_id : Z) : list (SeatType * Z * Z) :=
  let rows := report_rows d show_id in
  omap (λ seat_type,
          let group :=
            filter (λ ts, sql_seat_type (ts_row ts) = seat_type) rows in
          match group with
          | [] => None
          | _ => Some (seat_type, Z.of_nat (length group),
                       sum_prices (ts_price <$> group))
          end)
       [Premium; Standard].

(** ** Seat selection of book_tickets and cancel_tickets *)

Section FrontEnd.

(** A Python string is the list of its code points.  The built-in
    [str.strip], [str.upper], [str.isalpha] (on one character) and [int]
    (with [None] for its [ValueError]) are left open: what follows holds
    whatever they return. *)
Variables (strip upper : list Z → list Z).
Variable isalpha : Z → bool.
Variable int : list Z → option Z.

(** One seat string of either loop, after [strip]/[upper]: the checks on
    its length, its row letter and its column number.  [None] stands for
    [valid = False]. *)
Definition parse_seat (rows cols : Z) (seat_str : list Z) : option (Z * Z) :=
  match seat_str with
  | row_char :: second :: rest =>
      let tail := second :: rest in
      if negb (isalpha row_char) || bool_decide (row_char < 65)
         || bool_decide (65 + rows ≤ row_char)
      then None
      else
        let row := row_char - 65 in
        match int tail with
        | Some n =>
            let col := n - 1 in
            if bool_decide (col < 0) || bool_decide (cols ≤ col) then None
            else Some (row, col)
        | None => None
        end
  | _ => None
  end.

(** The loop over [seat_strings] of [book_tickets]: [(valid, seats)] when
    it ends. *)
Fixpoint parse_seats (rows cols : Z) (seat_strings : list (list Z))
    (seats : list (Z * Z)) : bool * list (Z * Z) :=
  match seat_strings with
  | [] => (true, seats)
  | seat_str :: rest =>
      match parse_seat rows cols (upper (strip seat_str)) with
      | None => (false, seats)
      | Some seat => parse_seats rows cols rest (seats ++ [seat])
      end
  end.

(** One round of the seat prompt of [book_tickets]: the seats it goes on
    to book, or [None] when it asks again. *)
Definition select_seats (d : DB) (show_id rows cols : Z)
    (seat_strings : list (list Z)) : option (list (Z * Z)) :=
  let '(valid, seats) := parse_seats rows cols seat_strings [] in
  if valid && bool_decide (seats ≠ []) then
    let unavailable_seats :=
      filter (λ s, is_seat_available d show_id s.1 s.2 = false) seats in
    if bool_decide (unavailable_seats ≠ []) then None else Some seats
  else None.

(** The loop over [seat_strings] of [cancel_tickets], [seats] being the
    seats of the ticket: [(valid, cancel_seats)] when it ends. *)
Fixpoint parse_cancel_seats (rows cols : Z) (seats : list (Z * Z))
    (seat_strings : list (list Z)) (cancel_seats : list (Z * Z))
  : bool * list (Z * Z) :=
  match seat_strings with
  | [] => (true, cancel_seats)
  | seat_str :: rest =>
      match parse_seat rows cols (strip seat_str) with
      | None => (false, cancel_seats)
      | Some seat =>
          if bool_decide (seat ∉ seats) then (false, cancel_seats)
          else parse_cancel_seats rows cols seats rest (cancel_seats ++ [seat])
      end
  end.

(** One round of the seat prompt of [cancel_tickets] (other than "B" and
    "ALL"): the seats it goes on to cancel, or [None] when it asks again. *)
Definition select_cancel_seats (rows cols : Z) (seats : list (Z * Z))
    (seat_strings : list (list Z)) : option (list (Z * Z)) :=
  let '(valid, cancel_seats) :=
    parse_cancel_seats rows cols seats seat_strings [] in
  if valid && bool_decide (cancel_seats ≠ []) then Some cancel_seats
  else None.

End FrontEnd.

(** The refund that [cancel_tickets] shows before it asks to confirm: the
    sum of [get_price] over the rows of the seats to cancel. *)
Definition quoted_refund (seats_to_cancel : list (Z * Z)) : Z :=
  sum_prices (get_price ∘ fst <$> seats_to_cancel).

(** ** The arguments the store takes *)

(** [sqlite3] binds a Python [int] as a 64-bit INTEGER and raises
    [OverflowError] for an [int] outside that range.  A REAL column
    ([ticket_seat.price], [ticket.total]) holds a double, which is exact on
    the integers up to 2^53 in magnitude, and the refund is the sum Python
    makes of the doubles it reads back.  The store above keeps every integer
    as it is: it is the store of the source on the arguments that the
    predicates below describe. *)
Definition int64 (z : Z) : Prop := - 2 ^ 63 ≤ z < 2 ^ 63.

Definition exact_real (z : Z) : Prop := - 2 ^ 53 ≤ z ≤ 2 ^ 53.

(** Every partial sum of [prices] is exact as a double. *)
Definition exact_sum (prices : list Z) : Prop :=
  sum_prices (Z.abs <$> prices) ≤ 2 ^ 53.

Definition seat_int64 (seat : Z * Z) : Prop := int64 seat.1 ∧ int64 seat.2.

(** The integers [book_seats] binds: the show, the rows and columns, the
    price of each seat and the total. *)
Definition book_int64 (price_of : Z → Z) (show_id : Z)
    (seats : list (Z * Z)) : Prop :=
  int64 show_id
  ∧ Forall seat_int64 seats
  ∧ Forall (λ s, int64 (price_of s.1)) seats
  ∧ int64 (sum_prices (price_of ∘ fst <$> seats)).

(** The integers [cancel_seats] binds: the ticket, the rows and columns. *)
Definition cancel_int64 (ticket_id : Z) (seats_to_cancel : list (Z * Z))
    : Prop :=
  int64 ticket_id ∧ Forall seat_int64 seats_to_cancel.

Definition op_int64 (o : op) : Prop :=
  match o with
  | BookSeats price_of show_id _ _ seats _ _ =>
      book_int64 price_of show_id seats
  | CancelSeats ticket_id seats_to_cancel =>
      cancel_int64 ticket_id seats_to_cancel
  end.

(** Closed instances of the range predicates are settled by evaluation. *)
Ltac in_range :=
  unfold op_int64, book_int64, cancel_int64, seat_int64, int64, exact_real,
    exact_sum;
  repeat first [apply Forall_cons_2 | apply Forall_nil_2 | split];
  vm_compute; congruence.

(** * Properties *)

(** ** Pricing policy *)

Lemma get_price_standard row :
  row = 0 ∨ row = 1 ∨ row = 2 → get_price row = 100.
Proof.
  intros H. unfold get_price. rewrite bool_decide_eq_true_2; [done|].
  rewrite !elem_of_cons, elem_of_nil. tauto.
Qed.

Lemma get_price_premium row :
  ¬ (row = 0 ∨ row = 1 ∨ row = 2) → get_price row = 150.
Proof.
  intros H. unfold get_price. rewrite bool_decide_eq_false_2; [done|].
  rewrite !elem_of_cons, elem_of_nil. tauto.
Qed.

(** C7: the pricing policy is a total function of the row alone; rows 0, 1
    and 2 are Standard at 100, every other row is Premium at 150, the
    Premium amount is the larger one, and [get_price] and [get_seat_type]
    split the rows in the same way. *)
Theorem pricing_policy_two_tiers (row : Z) :
  (row = 0 ∨ row = 1 ∨ row = 2 →
   get_price row = 100 ∧ get_seat_type row = Standard)
  ∧ (¬ (row = 0 ∨ row = 1 ∨ row = 2) →
     get_price row = 150 ∧ get_seat_type row = Premium)
  ∧ 100 < 150
  ∧ (get_price row = 100 ↔ get_seat_type row = Standard)
  ∧ (get_price row = 150 ↔ get_seat_type row = Premium).
Proof.
  unfold get_price, get_seat_type.
  case_bool_decide as Hrow; rewrite !elem_of_cons, elem_of_nil in Hrow;
    repeat split; try done; try lia; intros; exfalso; tauto.
Qed.

Lemma pricing_policy_two_tiers_witness :
  (get_price 1 = 100 ∧ get_seat_type 1 = Standard)
  ∧ (get_price 5 = 150 ∧ get_seat_type 5 = Premium).
Proof.
  split.
  - apply (pricing_policy_two_tiers 1). lia.
  - apply (pricing_policy_two_tiers 5). lia.
Defined.

(** ** Seat map and point query *)

(** The point query sees a row exactly when the show query lists the pair. *)
Lemma is_seat_available_true d show_id row col :
  is_seat_available d show_id row col = true
  ↔ (row, col) ∉ booked_seats d show_id.
Proof.
  unfold is_seat_available, booked_seats, fetchone.
  destruct (booked_seat_rows d show_id row col) as [|p l] eqn:Hrows; simpl.
  - split; [|done]. intros _ Hin.
    apply list_elem_of_fmap in Hin as (p & [= Hr Hc] & Hp).
    apply list_elem_of_filter in Hp as [[Hs Hb] Hp].
    assert (p ∈ booked_seat_rows d show_id row col) as Hin.
    { apply list_elem_of_filter. done. }
    rewrite Hrows in Hin. by apply elem_of_nil in Hin.
  - split; [done|]. intros Hout. exfalso. apply Hout.
    assert (p ∈ booked_seat_rows d show_id row col) as Hin.
    { rewrite Hrows. left. }
    apply list_elem_of_filter in Hin as [(Hs & Hr & Hc & Hb) Hp].
    apply list_elem_of_fmap. exists p. split; [by rewrite Hr, Hc|].
    apply list_elem_of_filter. done.
Qed.

Lemma is_seat_available_booked_seats d show_id row col :
  is_seat_available d show_id row col
  = bool_decide ((row, col) ∉ booked_seats d show_id).
Proof.
  pose proof (is_seat_available_true d show_id row col) as H.
  destruct (is_seat_available d show_id row col); symmetry.
  - apply bool_decide_eq_true_2, H. done.
  - apply bool_decide_eq_false_2. intros Hout. apply H in Hout. done.
Qed.

Lemma mark_occupied_well_shaped rows cols seat_map row col :
  well_shaped rows cols seat_map →
  well_shaped rows cols (mark_occupied seat_map row col).
Proof.
  intros [Hlen Hall]. unfold mark_occupied. split.
  - by rewrite length_alter.
  - apply Forall_alter; [done|]. intros r _ Hr. by rewrite length_insert.
Qed.

Lemma cell_mark_occupied rows cols seat_map row col row' col' :
  well_shaped (Z.to_nat rows) (Z.to_nat cols) seat_map →
  0 ≤ row < rows → 0 ≤ col < cols → 0 ≤ row' → 0 ≤ col' →
  cell (mark_occupied seat_map row col) row' col'
  = if decide ((row', col') = (row, col)) then Some false
    else cell seat_map row' col'.
Proof.
  intros [Hlen Hall] Hrow Hcol Hrow' Hcol'. unfold cell, mark_occupied.
  destruct (lookup_lt_is_Some_2 seat_map (Z.to_nat row)) as [r Hr]; [lia|].
  assert (length r = Z.to_nat cols) as Hlenr.
  { rewrite Forall_forall in Hall. apply Hall.
    by eapply list_elem_of_lookup_2. }
  destruct (decide (row' = row)) as [->|Hne].
  - rewrite list_lookup_alter_eq, Hr. simpl.
    destruct (decide (col' = col)) as [->|Hnec].
    + rewrite decide_True by done.
      apply list_lookup_insert_eq. lia.
    + rewrite decide_False by congruence.
      apply list_lookup_insert_ne. lia.
  - rewrite list_lookup_alter_ne by lia.
    by rewrite decide_False by congruence.
Qed.

Lemma cell_replicate rows cols row col :
  0 ≤ row < rows → 0 ≤ col < cols →
  cell (replicate (Z.to_nat rows) (replicate (Z.to_nat cols) true)) row col
  = Some true.
Proof.
  intros Hrow Hcol. unfold cell.
  rewrite lookup_replicate_2 by lia. simpl.
  apply lookup_replicate_2. lia.
Qed.

Lemma well_shaped_replicate rows cols :
  well_shaped rows cols (replicate rows (replicate cols true)).
Proof.
  split; [apply length_replicate|].
  apply Forall_replicate, length_replicate.
Qed.

(** The marking loop of [build_seat_map], from any grid of the right shape. *)
Lemma cell_mark_loop rows cols (l : list (Z * Z)) seat_map row col :
  well_shaped (Z.to_nat rows) (Z.to_nat cols) seat_map →
  0 ≤ row < rows → 0 ≤ col < cols →
  cell (foldl (λ seat_map '(row, col),
                 if bool_decide (0 ≤ row < rows ∧ 0 ≤ col < cols)
                 then mark_occupied seat_map row col
                 else seat_map) seat_map l) row col
  = if decide ((row, col) ∈ l) then Some false else cell seat_map row col.
Proof.
  intros Hshape Hrow Hcol. revert seat_map Hshape.
  induction l as [|[r c] l IH]; intros seat_map Hshape.
  - cbn [foldl]. destruct (decide _) as [Hin|Hin]; [by apply elem_of_nil in Hin|done].
  - cbn [foldl]. case_bool_decide as Hin.
    + rewrite IH by by apply mark_occupied_well_shaped.
      destruct Hin as [Hr Hc].
      rewrite (cell_mark_occupied rows cols) by (done || lia).
      destruct (decide ((row, col) ∈ (r, c) :: l)) as [H1|H1];
        destruct (decide ((row, col) ∈ l)) as [H2|H2];
        destruct (decide ((row, col) = (r, c))) as [H3|H3];
        try done; rewrite elem_of_cons in H1; tauto.
    + rewrite IH by done.
      destruct (decide ((row, col) ∈ (r, c) :: l)) as [H1|H1];
        destruct (decide ((row, col) ∈ l)) as [H2|H2];
        try done; rewrite elem_of_cons in H1; [|tauto].
      destruct H1 as [[= -> ->]|?]; [|done]. exfalso. apply Hin. lia.
Qed.

(** C8: on every store and for every cell inside the grid, the point query
    [is_seat_available] answers what the grid of [build_seat_map] holds at
    that cell. *)
Theorem point_query_agrees_with_seat_map d show_id rows cols row col :
  0 ≤ row < rows → 0 ≤ col < cols →
  cell (build_seat_map d show_id rows cols) row col
  = Some (is_seat_available d show_id row col).
Proof.
  intros Hrow Hcol. unfold build_seat_map.
  rewrite cell_mark_loop by (done || apply well_shaped_replicate).
  rewrite is_seat_available_booked_seats, cell_replicate by done.
  destruct (decide ((row, col) ∈ booked_seats d show_id)) as [Hin|Hout].
  - by rewrite bool_decide_eq_false_2 by tauto.
  - by rewrite bool_decide_eq_true_2.
Qed.

Lemma point_query_agrees_with_seat_map_witness :
  cell (build_seat_map (db st_a1_d4) 5 7 7) 3 3
  = Some (is_seat_available (db st_a1_d4) 5 3 3)
  ∧ is_seat_available (db st_a1_d4) 5 3 3 = false
  ∧ is_seat_available (db st_a1_d4) 5 3 4 = true.
Proof.
  split; [|split].
  - apply (point_query_agrees_with_seat_map (db st_a1_d4) 5 7 7 3 3); lia.
  - vm_compute. reflexivity.
  - vm_compute. reflexivity.
Defined.

(** ** The monad and the store primitives *)

Lemma sum_prices_cons x l : sum_prices (x :: l) = x + sum_prices l.
Proof. done. Qed.

Lemma sum_prices_app l k : sum_prices (l ++ k) = sum_prices l + sum_prices k.
Proof.
  induction l as [|x l IH]; [done|].
  rewrite <-app_comm_cons, !sum_prices_cons, IH. lia.
Qed.

Lemma next_rowid_above ids i : i ∈ ids → i < next_rowid ids.
Proof.
  destruct ids as [|j ids]; [by intros ?%elem_of_nil|].
  unfold next_rowid. revert j.
  induction ids as [|k ids IH]; intros j Hin; simpl.
  - apply list_elem_of_singleton in Hin. lia.
  - apply elem_of_cons in Hin as [->|Hin].
    + specialize (IH j ltac:(left)). lia.
    + apply elem_of_cons in Hin as [->|Hin]; [lia|].
      specialize (IH j ltac:(by right)). lia.
Qed.

Lemma next_rowid_fresh (m : gmap Z Ticket) :
  m !! next_rowid (elements (dom m)) = None.
Proof.
  apply not_elem_of_dom. intros Hin.
  apply elem_of_elements, next_rowid_above in Hin. lia.
Qed.

Lemma get_lock_spec show_id st :
  ∃ st', get_lock show_id st = (st', Ok show_id)
         ∧ db st' = db st ∧ trace st' = trace st
         ∧ locks st' = {[show_id]} ∪ locks st.
Proof.
  unfold get_lock. case_bool_decide as Hin.
  - exists st. split_and!; try done.
    symmetry. by apply subseteq_union_1_L, singleton_subseteq_l.
  - eexists. split_and!; done.
Qed.

Lemma insert_ticket_seat_conflict ticket_id show_id row col price st :
  (show_id, row, col) ∈ seat_key <$> ticket_seat (db st) →
  insert_ticket_seat ticket_id show_id row col price st
  = (st, Raise IntegrityError).
Proof.
  intros Hin. unfold insert_ticket_seat.
  rewrite bool_decide_eq_true_2; [done|].
  apply list_elem_of_fmap in Hin as (ts & [= Hs Hr Hc] & Hin).
  apply Exists_exists. by exists ts.
Qed.

Lemma insert_ticket_seat_fresh ticket_id show_id row col price st :
  (show_id, row, col) ∉ seat_key <$> ticket_seat (db st) →
  insert_ticket_seat ticket_id show_id row col price st
  = (set_db
       (mkDB (ticket (db st))
          (ticket_seat (db st)
           ++ [mkTicketSeat (next_rowid (ts_id <$> ticket_seat (db st)))
                 ticket_id show_id row col price])) st,
     Ok tt).
Proof.
  intros Hout. unfold insert_ticket_seat.
  rewrite bool_decide_eq_false_2; [done|].
  intros (ts & Hin & Hs & Hr & Hc)%Exists_exists.
  apply Hout, list_elem_of_fmap. exists ts. unfold seat_key.
  by rewrite Hs, Hr, Hc.
Qed.

(** The insert loop leaves everything but [ticket_seat] alone; when it
    returns, it has appended one row per entry, none of which repeats a key
    of the table or of an earlier entry; otherwise it has raised
    [IntegrityError]. *)
Lemma insert_seats_spec ticket_id show_id seat_details st :
  ∃ st' r,
    insert_seats ticket_id show_id seat_details st = (st', r)
    ∧ locks st' = locks st ∧ trace st' = trace st
    ∧ ticket (db st') = ticket (db st)
    ∧ match r with
      | Ok _ =>
          ∃ new_seats,
            ticket_seat (db st') = ticket_seat (db st) ++ new_seats
            ∧ ts_columns <$> new_seats
              = detail_columns ticket_id show_id <$> seat_details
            ∧ NoDup (seat_key <$> new_seats)
            ∧ (∀ k, k ∈ seat_key <$> new_seats →
                    k ∉ seat_key <$> ticket_seat (db st))
      | Raise e =>
          e = IntegrityError
          ∧ ¬ (NoDup ((λ d, (show_id, d.1.1, d.1.2)) <$> seat_details)
               ∧ ∀ d, d ∈ seat_details →
                      (show_id, d.1.1, d.1.2)
                      ∉ seat_key <$> ticket_seat (db st))
      end.
Proof.
  revert st. induction seat_details as [|[[row col] price] details IH];
    intros st.
  - exists st, (Ok tt). split_and!; try done.
    exists []. rewrite app_nil_r. split_and!; try done.
    + constructor.
    + by intros k ?%elem_of_nil.
  - cbn [insert_seats]. unfold bind at 1.
    destruct (decide ((show_id, row, col)
                      ∈ seat_key <$> ticket_seat (db st))) as [Hin|Hout].
    + rewrite insert_ticket_seat_conflict by done.
      exists st, (Raise IntegrityError). split_and!; try done.
      intros [_ Hfresh]. by apply (Hfresh (row, col, price)); [left|].
    + rewrite insert_ticket_seat_fresh by done.
      set (ts := mkTicketSeat _ ticket_id show_id row col price).
      match goal with |- context [insert_seats _ _ _ ?st1] =>
        destruct (IH st1) as (st' & r & -> & Hl & Ht & Htk & Hr) end.
      cbn [db set_db ticket ticket_seat locks trace] in *.
      exists st', r. split_and!; try done.
      destruct r as [[]|e].
      * destruct Hr as (new_seats & Hseats & Hcols & Hnd & Hfresh).
        exists (ts :: new_seats). split_and!.
        -- by rewrite Hseats, <-app_assoc.
        -- by rewrite !fmap_cons, Hcols.
        -- rewrite fmap_cons. apply NoDup_cons. split; [|done].
           intros Hk. apply Hfresh in Hk. apply Hk.
           rewrite fmap_app. apply elem_of_app. right. left.
        -- intros k. rewrite fmap_cons.
           intros [->|Hk]%elem_of_cons; [done|].
           apply Hfresh in Hk. rewrite fmap_app in Hk.
           intros Hk'. apply Hk, elem_of_app. by left.
      * destruct Hr as [-> Hr]. split; [done|].
        intros [Hnd Hfresh]. apply Hr. rewrite fmap_cons in Hnd.
        apply NoDup_cons in Hnd as [Hnin Hnd]. split; [done|].
        intros d Hd. rewrite fmap_app.
        intros [Hk|Hk]%elem_of_app.
        -- by apply (Hfresh d); [right|].
        -- apply list_elem_of_singleton in Hk. apply Hnin.
           apply list_elem_of_fmap. exists d. split; [|done].
           by rewrite Hk.
Qed.

Section BookSeats.

Context (price_of : Z → Z).

Lemma validate_seats_spec show_id seats total_price seat_details st :
  ∃ r, validate_seats price_of show_id seats total_price seat_details st
       = (st, r)
       ∧ match r with
         | Ok (total, details) =>
             total = total_price + sum_prices (price_of ∘ fst <$> seats)
             ∧ details = seat_details ++ (seat_detail price_of <$> seats)
             ∧ Forall (λ s, is_seat_available (db st) show_id s.1 s.2 = true)
                 seats
         | Raise e =>
             ∃ s, s ∈ seats
                  ∧ is_seat_available (db st) show_id s.1 s.2 = false
                  ∧ e = seat_error AlreadyBooked s.1 s.2
         end.
Proof.
  revert total_price seat_details.
  induction seats as [|[row col] seats IH]; intros total_price seat_details.
  - eexists. split; [done|]. simpl.
    rewrite app_nil_r. split_and!; [lia|done|done].
  - cbn [validate_seats]. unfold bind, query at 1.
    destruct (is_seat_available (db st) show_id row col) eqn:Hav; cbn [negb].
    + destruct (IH (total_price + price_of row)
                  (seat_details ++ [(row, col, price_of row)]))
        as (r & -> & Hr).
      exists r. split; [done|]. destruct r as [[total details]|e].
      * destruct Hr as (-> & -> & Hall). split_and!.
        -- rewrite fmap_cons, sum_prices_cons. simpl. lia.
        -- by rewrite <-app_assoc.
        -- by constructor.
      * destruct Hr as (s & Hin & Hs). exists s. split; [by right|done].
    + eexists. split; [done|]. exists (row, col). split; [left|done].
Qed.

Lemma recheck_seats_spec show_id seats st :
  ∃ o, recheck_seats show_id seats st = (st, Ok o)
       ∧ match o with
         | None =>
             Forall (λ s, is_seat_available (db st) show_id s.1 s.2 = true)
               seats
         | Some s =>
             s ∈ seats ∧ is_seat_available (db st) show_id s.1 s.2 = false
         end.
Proof.
  induction seats as [|[row col] seats IH].
  - by exists None.
  - cbn [recheck_seats]. unfold bind, query at 1.
    destruct (is_seat_available (db st) show_id row col) eqn:Hav; simpl.
    + destruct IH as (o & -> & Ho). exists o. split; [done|].
      destruct o as [s|]; [|by constructor].
      destruct Ho. split; [by right|done].
    + exists (Some (row, col)). split; [done|]. split; [left|done].
Qed.

Lemma recheck_seats_available show_id seats st :
  Forall (λ s, is_seat_available (db st) show_id s.1 s.2 = true) seats →
  recheck_seats show_id seats st = (st, Ok None).
Proof.
  intros Hall. destruct (recheck_seats_spec show_id seats st) as (o & -> & Ho).
  destruct o as [s|]; [|done]. destruct Ho as [Hin Hs].
  rewrite Forall_forall in Hall. apply Hall in Hin. congruence.
Qed.

Lemma book_seats_with_outcome show_id user_name user_mobile seats rows cols st :
  book_outcome price_of show_id user_name user_mobile seats st
    (book_seats_with price_of show_id user_name user_mobile seats rows cols
       st).1
    (book_seats_with price_of show_id user_name user_mobile seats rows cols
       st).2.
Proof.
  destruct (book_seats_with _ _ _ _ _ _ _ st) as [st' r] eqn:Hcall.
  cbn [fst snd]. revert Hcall.
  unfold book_seats_with. case_bool_decide as Hseats.
  { intros [= <- <-]. by constructor. }
  unfold bind at 1.
  destruct (validate_seats_spec show_id seats 0 [] st) as (r0 & -> & Hr).
  destruct r0 as [[total details]|e]; cycle 1.
  { destruct Hr as (s & Hin & Hs & ->). intros [= <- <-]. by constructor. }
  destruct Hr as (Htotal & Hdetails & Hall).
  rewrite Z.add_0_l in Htotal. rewrite app_nil_l in Hdetails.
  unfold bind at 1.
  destruct (get_lock_spec show_id st) as (st1 & -> & Hdb1 & Htr1 & Hl1).
  unfold with_lock, transaction. unfold bind at 1.
  rewrite recheck_seats_available by (cbn [db emit]; by rewrite Hdb1).
  unfold bind at 1. unfold insert_ticket at 1. cbn [db emit].
  set (ticket_id := next_rowid (elements (dom (ticket (db st1))))).
  unfold bind at 1.
  match goal with |- context [insert_seats ?t ?s ?d ?st2] =>
    destruct (insert_seats_spec t s d st2)
      as (st2' & r2 & -> & Hl & Ht & Htk & Hr) end.
  cbn [db set_db emit ticket ticket_seat locks trace] in *.
  destruct r2 as [[]|e]; cbn [ret]; intros [= <- <-].
  - destruct Hr as (new_seats & Hrows & Hcols & Hnd & Hfresh).
    subst total details ticket_id. rewrite Hdb1 in *.
    eapply book_committed with (new_seats := new_seats); try done.
    + rewrite Hcols, <-list_fmap_compose. done.
    + cbn [locks emit]. by rewrite Hl.
    + cbn [trace emit]. rewrite Ht, Htr1, <-!app_assoc. done.
  - destruct Hr as [-> Hr]. rewrite Hdb1 in *.
    apply book_refused; try done.
    + intros [Hnd Hfresh]. apply Hr. subst details. split.
      * rewrite <-list_fmap_compose.
        apply NoDup_fmap_2_strong; [|done].
        intros [? ?] [? ?] _ _ [= -> ->]. done.
      * intros d (s & -> & Hs)%list_elem_of_fmap. exact (Hfresh s Hs).
    + cbn [locks emit set_db]. by rewrite Hl.
    + cbn [trace emit set_db]. rewrite Ht, Htr1, <-!app_assoc. done.
Qed.

End BookSeats.

(** ** Cancellation *)

Lemma refund_loop_spec ticket_id seats_to_cancel refund_amount st :
  refund_loop ticket_id seats_to_cancel refund_amount st
  = (st, Ok (refund_amount
             + sum_prices (omap (stored_price (db st) ticket_id)
                             seats_to_cancel))).
Proof.
  revert refund_amount.
  induction seats_to_cancel as [|[row col] rest IH]; intros refund_amount.
  - simpl. unfold ret. by rewrite Z.add_0_r.
  - cbn [refund_loop omap list_omap]. unfold bind, query at 1.
    unfold stored_price at 1. cbn [fst snd].
    destruct (fetchone (select_price (db st) ticket_id row col)) as [price|].
    + rewrite IH, sum_prices_cons. do 2 f_equal. lia.
    + by rewrite IH.
Qed.

Lemma filter_all {A} (P : A → Prop) `{∀ x, Decision (P x)} (l : list A) :
  (∀ x, x ∈ l → P x) → filter P l = l.
Proof.
  induction l as [|x l IH]; intros Hall; [done|].
  rewrite filter_cons_True by (apply Hall; left).
  f_equal. apply IH. intros y Hy. apply Hall. by right.
Qed.

Lemma delete_loop_spec ticket_id seats_to_cancel st :
  delete_loop ticket_id seats_to_cancel st
  = (set_db (mkDB (ticket (db st))
               (filter (λ ts, ¬ cancelled_row ticket_id seats_to_cancel ts)
                  (ticket_seat (db st)))) st,
     Ok tt).
Proof.
  revert st. induction seats_to_cancel as [|[row col] rest IH]; intros st.
  - cbn [delete_loop]. unfold ret. rewrite filter_all.
    + by destruct st as [[tk seats] lk tr].
    + intros ts _ [_ Hin]. by apply elem_of_nil in Hin.
  - cbn [delete_loop]. unfold bind, delete_ticket_seat at 1.
    rewrite IH. cbn [db set_db ticket ticket_seat locks trace].
    rewrite list_filter_filter. unfold set_db. do 3 f_equal.
    apply list_filter_iff. intros ts. unfold cancelled_row.
    rewrite elem_of_cons. split.
    + intros [Hrest Hhead] [Ht [[= Hr Hc]|Hin]]; tauto.
    + intros Hno. split.
      * intros [Ht Hin]. apply Hno. tauto.
      * intros (Ht & Hr & Hc). apply Hno. split; [done|]. left.
        by rewrite Hr, Hc.
Qed.

Lemma cancel_seats_outcome ticket_id seats_to_cancel st :
  cancel_outcome ticket_id seats_to_cancel st
    (cancel_seats ticket_id seats_to_cancel st).1
    (cancel_seats ticket_id seats_to_cancel st).2.
Proof.
  destruct (cancel_seats _ _ st) as [st' r] eqn:Hcall.
  cbn [fst snd]. revert Hcall.
  unfold cancel_seats, transaction. unfold bind at 1. unfold query at 1.
  unfold select_booked_ticket. cbn [db emit].
  destruct (ticket (db st) !! ticket_id) as [t|] eqn:Ht; cycle 1.
  { cbn [fetchone head raise]. intros [= <- <-].
    apply cancel_not_booked; try done.
    - intros t. by rewrite Ht.
    - cbn [trace emit set_db]. by rewrite <-app_assoc. }
  case_bool_decide as Hbooked; cycle 1.
  { cbn [fetchone head raise]. intros [= <- <-].
    apply cancel_not_booked; try done.
    - intros t'. rewrite Ht. by intros [= <-].
    - cbn [trace emit set_db]. by rewrite <-app_assoc. }
  cbn [fetchone head]. unfold bind at 1. rewrite refund_loop_spec.
  unfold bind at 1. rewrite delete_loop_spec.
  unfold bind at 1. unfold query at 1.
  cbn [db emit set_db ticket ticket_seat locks trace].
  rewrite Z.add_0_l.
  set (refund := sum_prices (omap (stored_price (db st) ticket_id)
                               seats_to_cancel)).
  unfold bind, ret, count_seats. cbn [db ticket_seat].
  case_bool_decide as Hremaining.
  - unfold update_ticket_cancelled.
    cbn [db emit set_db ticket ticket_seat locks trace].
    intros [= <- <-].
    eapply cancel_committed; try done;
      cbn [db emit set_db ticket ticket_seat locks trace].
    + unfold seats_of_ticket. cbn [ticket_seat].
      rewrite decide_True.
      * apply map_eq. intros i. rewrite lookup_alter, lookup_insert.
        case_decide; [subst i; by rewrite Ht|done].
      * apply length_zero_iff_nil. lia.
    + by rewrite <-app_assoc.
  - unfold update_ticket_total.
    cbn [db emit set_db ticket ticket_seat locks trace].
    intros [= <- <-].
    eapply cancel_committed; try done;
      cbn [db emit set_db ticket ticket_seat locks trace].
    + unfold seats_of_ticket. cbn [ticket_seat].
      rewrite decide_False.
      * apply map_eq. intros i. rewrite lookup_alter, lookup_insert.
        case_decide; [subst i; by rewrite Ht|done].
      * intros Hnil. apply Hremaining. by rewrite Hnil.
    + by rewrite <-app_assoc.
Qed.

Lemma ex_book_a1_d4 :
  book_seats 5 "asha" "9876543210" [(0, 0); (3, 3)] 7 7 init_state
  = (st_a1_d4, Ok (1, 250, [(0, 0, 100); (3, 3, 150)])).
Proof. vm_compute. reflexivity. Qed.

Lemma ex_cancel_a1 : cancel_seats 1 [(0, 0)] st_a1_d4 = (st_d4, Ok 100).
Proof. vm_compute. reflexivity. Qed.

Lemma ex_cancel_d4 : cancel_seats 1 [(3, 3)] st_d4 = (st_none, Ok 150).
Proof. vm_compute. reflexivity. Qed.

Lemma ex_book_row7 :
  book_seats 1 "asha" "9876543210" [(7, 0)] 7 7 init_state
  = (st_row7, Ok (1, 150, [(7, 0, 150)])).
Proof. vm_compute. reflexivity. Qed.


Lemma ex_book_a1_a2 :
  book_seats 1 "asha" "9876543210" [(0, 0); (0, 1)] 7 7 init_state
  = (st_a1_a2, Ok (1, 200, [(0, 0, 100); (0, 1, 100)])).
Proof. vm_compute. reflexivity. Qed.

Lemma ex_cancel_thrice :
  cancel_seats 1 [(0, 0); (0, 0); (0, 0)] st_a1_a2 = (st_overdrawn, Ok 300).
Proof. vm_compute. reflexivity. Qed.

(** ** Booking is all or nothing *)

(** What the columns of the inserted rows say about each of them. *)
Lemma new_seats_columns price_of ticket_id show_id (seats : list (Z * Z))
    (new_seats : list TicketSeat) ts :
  ts_columns <$> new_seats
  = (λ s, (ticket_id, show_id, s.1, s.2, price_of s.1)) <$> seats →
  ts ∈ new_seats →
  ts_ticket_id ts = ticket_id ∧ ts_show_id ts = show_id
  ∧ (ts_row ts, ts_col ts) ∈ seats ∧ ts_price ts = price_of (ts_row ts).
Proof.
  intros Hcols Hin.
  apply (list_elem_of_fmap_2 ts_columns) in Hin. rewrite Hcols in Hin.
  apply list_elem_of_fmap in Hin as ([row col] & [= Ht Hs Hr Hc Hp] & Hin).
  simpl in *. subst. done.
Qed.

Lemma seats_of_ticket_new price_of ticket_id show_id (seats : list (Z * Z))
    (new_seats : list TicketSeat) d d' :
  foreign_keys_ok d →
  ticket d !! ticket_id = None →
  ticket_seat d' = ticket_seat d ++ new_seats →
  ts_columns <$> new_seats
  = (λ s, (ticket_id, show_id, s.1, s.2, price_of s.1)) <$> seats →
  seats_of_ticket d' ticket_id = new_seats.
Proof.
  intros Hfk Hfresh Hrows Hcols. unfold seats_of_ticket.
  rewrite Hrows, filter_app.
  replace (filter _ (ticket_seat d)) with (@nil TicketSeat).
  - rewrite app_nil_l. apply filter_all. intros ts Hin.
    by eapply new_seats_columns.
  - symmetry. apply elem_of_nil_inv. intros ts [Hid Hin]%list_elem_of_filter.
    apply Hfk in Hin as [t Ht]. congruence.
Qed.

(** C1: a call of [book_seats] is all or nothing.  When it returns
    [(ticket_id, total, confirmed)], the store has gained exactly one
    ticket, under an id that was free, with status [BOOKED] and the returned
    total, and exactly one seat row per requested seat, in order, each owned
    by that ticket and carrying the tier price of its row; the total is the
    sum of these prices; and in a store without orphan seat rows these are
    all the rows the ticket owns.  When it raises, the store is as it was. *)
Theorem book_seats_all_or_nothing show_id user_name user_mobile seats rows cols
    st st' r :
  book_seats show_id user_name user_mobile seats rows cols st = (st', r) →
  match r with
  | Ok (ticket_id, total, confirmed) =>
      ticket (db st) !! ticket_id = None
      ∧ ticket (db st')
        = <[ticket_id := mkTicket show_id user_name user_mobile BOOKED total]>
            (ticket (db st))
      ∧ total = sum_prices (get_price ∘ fst <$> seats)
      ∧ confirmed = seat_detail get_price <$> seats
      ∧ ∃ new_seats,
          ticket_seat (db st') = ticket_seat (db st) ++ new_seats
          ∧ ts_columns <$> new_seats
            = (λ s, (ticket_id, show_id, s.1, s.2, get_price s.1)) <$> seats
          ∧ (foreign_keys_ok (db st) →
             seats_of_ticket (db st') ticket_id = new_seats)
  | Raise e => db st' = db st
  end.
Proof.
  intros Hcall.
  pose proof (book_seats_with_outcome get_price show_id user_name user_mobile
                seats rows cols st) as Hout.
  unfold book_seats in Hcall. rewrite Hcall in Hout. cbn [fst snd] in Hout.
  destruct Hout as [Hnil|s Hne Hin Hs|st' Hne Hall Hdup Hdb Hl Htr
                    |st' ticket_id total new_seats Hne Hall Hid Htotal Htk
                       Hrows Hcols Hnd Hfresh Hl Htr]; try done.
  assert (ticket (db st) !! ticket_id = None) as Hfree.
  { subst ticket_id. apply next_rowid_fresh. }
  split_and!; try done.
  exists new_seats. split_and!; try done.
  intros Hfk. by eapply seats_of_ticket_new.
Qed.

Lemma book_seats_all_or_nothing_witness :
  book_seats 5 "asha" "9876543210" [(0, 0); (3, 3)] 7 7 init_state
  = (st_a1_d4, Ok (1, 250, [(0, 0, 100); (3, 3, 150)]))
  ∧ foreign_keys_ok (db init_state)
  ∧ ∃ new_seats,
      ticket_seat (db st_a1_d4) = ticket_seat (db init_state) ++ new_seats
      ∧ seats_of_ticket (db st_a1_d4) 1 = new_seats.
Proof.
  assert (foreign_keys_ok (db init_state)) as Hfk.
  { intros ts Hin. by apply elem_of_nil in Hin. }
  split; [exact ex_book_a1_d4|]. split; [exact Hfk|].
  destruct (book_seats_all_or_nothing _ _ _ _ _ _ _ _ _ ex_book_a1_d4)
    as (_ & _ & _ & _ & new_seats & Hrows & _ & Howned).
  exists new_seats. split; [exact Hrows|exact (Howned Hfk)].
Defined.

(** ** One seat, two bookings in a row *)

(** A committed booking leaves each of its seats unavailable. *)
Lemma book_seats_occupies price_of show_id user_name user_mobile seats st st'
    v s :
  book_outcome price_of show_id user_name user_mobile seats st st' (Ok v) →
  s ∈ seats →
  is_seat_available (db st') show_id s.1 s.2 = false.
Proof.
  intros Hout Hs.
  inversion Hout as [| | |st'' ticket_id total new_seats Hne Hall Hid Htotal
                           Htk Hrows Hcols Hnd Hfresh Hl Htr]; subst.
  apply (list_elem_of_fmap_2
           (λ s, (next_rowid (elements (dom (ticket (db st)))), show_id,
                  s.1, s.2, price_of s.1))) in Hs.
  rewrite <-Hcols in Hs.
  apply list_elem_of_fmap in Hs as (ts & [= Hid Hshow Hr Hc Hp] & Hts).
  destruct (is_seat_available (db st') show_id s.1 s.2) eqn:Hav; [|done].
  exfalso. apply is_seat_available_true in Hav. apply Hav.
  unfold booked_seats. apply list_elem_of_fmap.
  eexists (ts, _). split; [by rewrite Hr, Hc|].
  apply list_elem_of_filter. split; cycle 1.
  - unfold join_ticket. apply list_elem_of_omap. exists ts. split.
    + rewrite Hrows. apply elem_of_app. by right.
    + by rewrite Htk, <-Hid, lookup_insert_eq.
  - done.
Qed.

(** A request for a seat that is taken is refused by the pre-check, with
    the state as it was. *)
Lemma book_seats_occupied_refused price_of show_id user_name user_mobile seats
    rows cols st s :
  s ∈ seats →
  is_seat_available (db st) show_id s.1 s.2 = false →
  ∃ s', s' ∈ seats
        ∧ book_seats_with price_of show_id user_name user_mobile seats rows
            cols st
          = (st, Raise (seat_error AlreadyBooked s'.1 s'.2)).
Proof.
  intros Hs Htaken.
  pose proof (book_seats_with_outcome price_of show_id user_name user_mobile
                seats rows cols st) as Hout.
  destruct (book_seats_with _ _ _ _ _ _ _ st) as [st' r].
  cbn [fst snd] in Hout.
  destruct Hout as [Hnil|s' Hne Hin Hs'|st' Hne Hall Hdup Hdb Hl Htr
                    |st' ticket_id total new_seats Hne Hall Hid Htotal Htk
                       Hrows Hcols Hnd Hfresh Hl Htr].
  - subst seats. by apply elem_of_nil in Hs.
  - by exists s'.
  - rewrite Forall_forall in Hall. apply Hall in Hs. congruence.
  - rewrite Forall_forall in Hall. apply Hall in Hs. congruence.
Qed.

(** Of two calls made one after the other for the same seat of a show,
    with arguments the store takes, the second is refused once the first
    has committed: it raises in the pre-check, for a seat of its request
    that is taken, before it looks up the lock, and the state stays as the
    first call left it.  What it raises is the [ValueError] "Seat ... is
    already booked" when [65 + row] of that seat is a code point, and the
    error of [chr] itself when it is not. *)
Lemma second_booking_refused price_of show_id user_name user_mobile seats rows
    cols price_of' user_name' user_mobile' seats' rows' cols' st st' v s :
  book_int64 price_of show_id seats →
  Forall seat_int64 seats' →
  book_seats_with price_of show_id user_name user_mobile seats rows cols st
  = (st', Ok v) →
  s ∈ seats → s ∈ seats' →
  ∃ s', s' ∈ seats'
        ∧ is_seat_available (db st') show_id s'.1 s'.2 = false
        ∧ book_seats_with price_of' show_id user_name' user_mobile' seats'
            rows' cols' st'
          = (st',
             Raise (if bool_decide (0 ≤ 65 + s'.1 < 1114112)
                    then ValueError (AlreadyBooked s'.1 s'.2)
                    else ChrError)).
Proof.
  intros _ _ Hcall Hs Hs'.
  assert (is_seat_available (db st') show_id s.1 s.2 = false) as Htaken.
  { pose proof (book_seats_with_outcome price_of show_id user_name
                  user_mobile seats rows cols st) as Hout.
    rewrite Hcall in Hout. cbn [fst snd] in Hout.
    by eapply book_seats_occupies. }
  pose proof (book_seats_with_outcome price_of' show_id user_name'
                user_mobile' seats' rows' cols' st') as Hout.
  destruct (book_seats_with price_of' _ _ _ seats' _ _ st') as [st'' r].
  cbn [fst snd] in Hout.
  destruct Hout as [Hnil|s' Hne Hin Hs'taken|st'' Hne Hall Hdup Hdb Hl Htr
                    |st'' ticket_id total new_seats Hne Hall Hid Htotal Htk
                       Hrows Hcols Hnd Hfresh Hl Htr].
  - subst seats'. by apply elem_of_nil in Hs'.
  - by exists s'.
  - rewrite Forall_forall in Hall. apply Hall in Hs'. congruence.
  - rewrite Forall_forall in Hall. apply Hall in Hs'. congruence.
Qed.

(** ** Requests that break the precondition *)




(** ** Refund and bookkeeping of a cancellation *)

(** [stored_price] is the price of a row of the ticket at that pair, and
    there is none exactly when the ticket owns no row there. *)
Lemma stored_price_Some d ticket_id seat price :
  stored_price d ticket_id seat = Some price →
  ∃ ts, ts ∈ ticket_seat d ∧ ts_ticket_id ts = ticket_id
        ∧ (ts_row ts, ts_col ts) = seat ∧ ts_price ts = price.
Proof.
  unfold stored_price, fetchone, select_price. destruct seat as [row col].
  intros Hhead. apply head_Some_elem_of in Hhead.
  apply list_elem_of_fmap in Hhead as (ts & -> & Hin).
  apply list_elem_of_filter in Hin as [(Ht & Hr & Hc) Hin].
  exists ts. simpl in *. by rewrite Hr, Hc.
Qed.

Lemma stored_price_None d ticket_id seat :
  stored_price d ticket_id seat = None
  ↔ ∀ ts, ts ∈ ticket_seat d → ts_ticket_id ts = ticket_id →
          (ts_row ts, ts_col ts) ≠ seat.
Proof.
  unfold stored_price, fetchone, select_price. destruct seat as [row col].
  rewrite head_None. simpl. split.
  - intros Hnil%fmap_nil_inv ts Hin Ht [= Hr Hc].
    by apply (filter_nil_not_elem_of _ _ ts Hnil).
  - intros Hno.
    replace (filter _ (ticket_seat d)) with (@nil TicketSeat); [done|].
    symmetry. apply elem_of_nil_inv.
    intros ts [(Ht & Hr & Hc) Hin]%list_elem_of_filter.
    apply (Hno ts); [done..|]. by rewrite Hr, Hc.
Qed.

(** On a ticket that is there and [BOOKED], [cancel_seats] returns. *)
Lemma cancel_seats_booked ticket_id seats_to_cancel st t :
  ticket (db st) !! ticket_id = Some t →
  t_status t = BOOKED →
  ∃ st',
    cancel_seats ticket_id seats_to_cancel st
    = (st',
       Ok (sum_prices
             (omap (stored_price (db st) ticket_id) seats_to_cancel)))
    ∧ ticket_seat (db st')
      = filter (λ ts, ¬ cancelled_row ticket_id seats_to_cancel ts)
          (ticket_seat (db st)).
Proof.
  intros Ht Hbooked.
  pose proof (cancel_seats_outcome ticket_id seats_to_cancel st) as Hout.
  destruct (cancel_seats ticket_id seats_to_cancel st) as [st' r].
  cbn [fst snd] in Hout.
  destruct Hout as [st' Hno|st' t' refund Ht' Hb Hrefund Hrows Htk Hl Htr].
  - by apply Hno in Ht.
  - subst refund. by exists st'.
Qed.

(** C4: on a ticket that exists with status [BOOKED], and for a ticket id
    and pairs that the store takes (64-bit integers) with prices whose sum
    is exact, [cancel_seats] returns; the refund is the sum, over the
    requested pairs, of the stored price of the row this ticket has at the
    pair, a pair at which the ticket has no row adding nothing; and exactly
    the rows of this ticket at the requested pairs are deleted. *)
Theorem cancel_seats_refund ticket_id seats_to_cancel st t :
  cancel_int64 ticket_id seats_to_cancel →
  exact_sum (omap (stored_price (db st) ticket_id) seats_to_cancel) →
  ticket (db st) !! ticket_id = Some t →
  t_status t = BOOKED →
  ∃ st',
    cancel_seats ticket_id seats_to_cancel st
    = (st',
       Ok (sum_prices
             (omap (stored_price (db st) ticket_id) seats_to_cancel)))
    ∧ ticket_seat (db st')
      = filter (λ ts, ¬ (ts_ticket_id ts = ticket_id
                         ∧ (ts_row ts, ts_col ts) ∈ seats_to_cancel))
          (ticket_seat (db st))
    ∧ ∀ seat, seat_int64 seat →
        stored_price (db st) ticket_id seat = None →
        (cancel_seats ticket_id (seat :: seats_to_cancel) st).2
        = (cancel_seats ticket_id seats_to_cancel st).2.
Proof.
  intros _ _ Ht Hbooked.
  destruct (cancel_seats_booked ticket_id seats_to_cancel st t Ht Hbooked)
    as (st' & Hcall & Hrows).
  exists st'. split_and!; [done|done|].
  intros seat _ Hnone.
  destruct (cancel_seats_booked ticket_id (seat :: seats_to_cancel) st t Ht
              Hbooked) as (st'' & Hcall' & _).
  rewrite Hcall, Hcall'. cbn [snd omap list_omap]. by rewrite Hnone.
Qed.

Lemma cancel_seats_refund_witness :
  cancel_int64 1 [(0, 0); (6, 6)]
  ∧ exact_sum (omap (stored_price (db st_a1_d4) 1) [(0, 0); (6, 6)])
  ∧ ticket (db st_a1_d4) !! 1
    = Some (mkTicket 5 "asha" "9876543210" BOOKED 250)
  ∧ ∃ st',
      cancel_seats 1 [(0, 0); (6, 6)] st_a1_d4
      = (st',
         Ok (sum_prices (omap (stored_price (db st_a1_d4) 1) [(0, 0); (6, 6)])))
      ∧ sum_prices (omap (stored_price (db st_a1_d4) 1) [(0, 0); (6, 6)])
        = 100.
Proof.
  assert (cancel_int64 1 [(0, 0); (6, 6)]) as Hrange by in_range.
  assert (exact_sum (omap (stored_price (db st_a1_d4) 1) [(0, 0); (6, 6)]))
    as Hexact by in_range.
  assert (ticket (db st_a1_d4) !! 1
          = Some (mkTicket 5 "asha" "9876543210" BOOKED 250)) as Ht.
  { vm_compute. reflexivity. }
  split; [exact Hrange|]. split; [exact Hexact|]. split; [exact Ht|].
  destruct (cancel_seats_refund 1 [(0, 0); (6, 6)] st_a1_d4 _ Hrange Hexact
              Ht eq_refl) as (st' & Hcall & _).
  exists st'. split; [exact Hcall|]. vm_compute. reflexivity.
Defined.

(** C5, as the code has it: after a call of [cancel_seats] that returned,
    the ticket, which was [BOOKED], is [CANCELLED] with total 0 when no seat
    row of it is left, and is still [BOOKED] with the previous total minus
    the refund otherwise.  The difference is stored as it comes: the code
    has no check of its sign. *)
Theorem cancel_seats_status_and_total ticket_id seats_to_cancel st st' refund :
  cancel_seats ticket_id seats_to_cancel st = (st', Ok refund) →
  ∃ t t',
    ticket (db st) !! ticket_id = Some t
    ∧ t_status t = BOOKED
    ∧ ticket (db st') !! ticket_id = Some t'
    ∧ (seats_of_ticket (db st') ticket_id = [] →
       t_status t' = CANCELLED ∧ t_total t' = 0)
    ∧ (seats_of_ticket (db st') ticket_id ≠ [] →
       t_status t' = BOOKED ∧ t_total t' = t_total t - refund).
Proof.
  intros Hcall.
  pose proof (cancel_seats_outcome ticket_id seats_to_cancel st) as Hout.
  rewrite Hcall in Hout. cbn [fst snd] in Hout.
  inversion Hout as [|st'' t refund' Ht Hb Hrefund Hrows Htk Hl Htr]; subst.
  eexists t, _. split_and!; [done|done|..].
  - rewrite Htk. apply lookup_insert_eq.
  - intros Hnil. by rewrite decide_True.
  - intros Hleft. by rewrite decide_False.
Qed.

Lemma cancel_seats_status_and_total_witness :
  cancel_seats 1 [(0, 0)] st_a1_d4 = (st_d4, Ok 100)
  ∧ ∃ t t',
      ticket (db st_a1_d4) !! 1 = Some t
      ∧ ticket (db st_d4) !! 1 = Some t'
      ∧ t_status t' = BOOKED ∧ t_total t' = t_total t - 100.
Proof.
  split; [exact ex_cancel_a1|].
  destruct (cancel_seats_status_and_total _ _ _ _ _ ex_cancel_a1)
    as (t & t' & Ht & _ & Ht' & _ & Hleft).
  exists t, t'. split; [exact Ht|]. split; [exact Ht'|].
  apply Hleft. vm_compute. discriminate.
Defined.

(** C5 as stated fails: cancelling A1 three times in one call on a ticket
    of A1 and A2 (total 200) returns a refund of 300 and commits the total
    -100, with status [BOOKED]; the call does not fail. *)
Lemma cancel_seats_commits_negative_total :
  ticket (db st_a1_a2) !! 1
  = Some (mkTicket 1 "asha" "9876543210" BOOKED 200)
  ∧ cancel_seats 1 [(0, 0); (0, 0); (0, 0)] st_a1_a2 = (st_overdrawn, Ok 300)
  ∧ ticket (db st_overdrawn) !! 1
    = Some (mkTicket 1 "asha" "9876543210" BOOKED (-100))
  ∧ last (trace st_overdrawn) = Some Commit.
Proof.
  split_and!; [by vm_compute|exact ex_cancel_thrice|by vm_compute|done].
Qed.

(** ** The store invariant along a run *)

Lemma NoDup_fmap_sublist {A B} (f : A → B) (l k : list A) :
  l `sublist_of` k → NoDup (f <$> k) → NoDup (f <$> l).
Proof.
  intros Hsub Hnd. eapply sublist_NoDup; [done|]. by apply fmap_sublist.
Qed.

Lemma NoDup_fmap_coarser {A B C} (f : A → B) (g : A → C) (l : list A) :
  (∀ x y, x ∈ l → y ∈ l → f x = f y → g x = g y) →
  NoDup (g <$> l) → NoDup (f <$> l).
Proof.
  induction l as [|x l IH]; intros Hfg Hnd; [constructor|].
  rewrite fmap_cons in *. apply NoDup_cons in Hnd as [Hx Hnd].
  apply NoDup_cons. split.
  - intros (y & Hxy & Hy)%list_elem_of_fmap. apply Hx.
    apply list_elem_of_fmap. exists y. split; [|done].
    apply Hfg; [left|by right|done].
  - apply IH; [|done]. intros y z Hy Hz. apply Hfg; by right.
Qed.

Lemma store_inv_init : store_inv (db init_state).
Proof.
  split; [|constructor]. intros ts Hin. by apply elem_of_nil in Hin.
Qed.

Lemma store_inv_foreign_keys d : store_inv d → foreign_keys_ok d.
Proof. intros [Hown _] ts Hin. destruct (Hown ts Hin) as (t & -> & _). done. Qed.

Lemma store_inv_book price_of show_id user_name user_mobile seats st st' r :
  book_outcome price_of show_id user_name user_mobile seats st st' r →
  store_inv (db st) → store_inv (db st').
Proof.
  intros Hout Hinv.
  destruct Hout as [Hnil|s Hne Hin Hs|st' Hne Hall Hdup Hdb Hl Htr
                    |st' ticket_id total new_seats Hne Hall Hid Htotal Htk
                       Hrows Hcols Hnd Hfresh Hl Htr];
    [done|done|by rewrite Hdb|].
  assert (ticket (db st) !! ticket_id = None) as Hfree.
  { subst ticket_id. apply next_rowid_fresh. }
  destruct Hinv as [Hown Hkeys]. split.
  - intros ts. rewrite Hrows, Htk. intros [Hin|Hin]%elem_of_app.
    + destruct (Hown ts Hin) as (t & Ht & Hb). exists t. split; [|done].
      rewrite lookup_insert_ne; [done|]. congruence.
    + eapply new_seats_columns in Hin as (-> & _); [|done].
      eexists. split; [apply lookup_insert_eq|done].
  - rewrite Hrows, fmap_app. apply NoDup_app. split_and!; [done| |done].
    intros k Hold Hnew. by apply Hfresh in Hnew.
Qed.

Lemma store_inv_cancel ticket_id seats_to_cancel st st' r :
  cancel_outcome ticket_id seats_to_cancel st st' r →
  store_inv (db st) → store_inv (db st').
Proof.
  intros Hout Hinv.
  destruct Hout as [st' Hno Hdb Hl Htr
                    |st' t refund Ht Hb Hrefund Hrows Htk Hl Htr];
    [by rewrite Hdb|].
  destruct Hinv as [Hown Hkeys]. split.
  - intros ts Hin. rewrite Htk.
    destruct (decide (ts_ticket_id ts = ticket_id)) as [Hid|Hid].
    + rewrite Hid, lookup_insert_eq. eexists. split; [done|].
      rewrite decide_False; [done|].
      intros Hnil. unfold seats_of_ticket in Hnil.
      by apply (filter_nil_not_elem_of _ _ ts Hnil).
    + rewrite lookup_insert_ne by done. apply Hown.
      rewrite Hrows in Hin. by apply list_elem_of_filter in Hin as [_ Hin].
  - rewrite Hrows. eapply NoDup_fmap_sublist; [|done]. apply sublist_filter.
Qed.

Lemma run_op_book_outcome price_of show_id user_name user_mobile seats rows
    cols st :
  ∃ r, book_outcome price_of show_id user_name user_mobile seats st
         (run_op st (BookSeats price_of show_id user_name user_mobile seats
                       rows cols)) r.
Proof. eexists. apply book_seats_with_outcome. Qed.

Lemma run_op_cancel_outcome ticket_id seats_to_cancel st :
  ∃ r, cancel_outcome ticket_id seats_to_cancel st
         (run_op st (CancelSeats ticket_id seats_to_cancel)) r.
Proof. eexists. apply cancel_seats_outcome. Qed.

Lemma store_inv_run_op o st : store_inv (db st) → store_inv (db (run_op st o)).
Proof.
  destruct o as [price_of show_id user_name user_mobile seats rows cols
                |ticket_id seats_to_cancel].
  - destruct (run_op_book_outcome price_of show_id user_name user_mobile seats
                rows cols st) as [r Hout].
    by eapply store_inv_book.
  - destruct (run_op_cancel_outcome ticket_id seats_to_cancel st) as [r Hout].
    by eapply store_inv_cancel.
Qed.

Lemma store_inv_run ops st : store_inv (db st) → store_inv (db (run ops st)).
Proof.
  revert st. induction ops as [|o ops IH]; intros st Hinv; [done|].
  apply IH, store_inv_run_op, Hinv.
Qed.

(** Seat rows stay inside the grid as long as the calls respect it. *)
Lemma in_grid_run_op dims o st :
  op_in_bounds dims o →
  (∀ ts, ts ∈ ticket_seat (db st) →
         in_grid dims (ts_show_id ts) (ts_row ts, ts_col ts)) →
  ∀ ts, ts ∈ ticket_seat (db (run_op st o)) →
        in_grid dims (ts_show_id ts) (ts_row ts, ts_col ts).
Proof.
  intros Hop Hgrid.
  destruct o as [price_of show_id user_name user_mobile seats rows cols
                |ticket_id seats_to_cancel].
  - destruct (run_op_book_outcome price_of show_id user_name user_mobile seats
                rows cols st) as [r Hout].
    destruct Hout as [Hnil|s Hne Hin Hs|st' Hne Hall Hdup Hdb Hl Htr
                      |st' ticket_id total new_seats Hne Hall Hid Htotal Htk
                         Hrows Hcols Hnd Hfresh Hl Htr];
      [done|done|by rewrite Hdb|].
    intros ts. rewrite Hrows. intros [Hin|Hin]%elem_of_app; [by apply Hgrid|].
    eapply new_seats_columns in Hin as (_ & -> & Hin & _); [|done].
    destruct Hop as [_ Hall']. rewrite Forall_forall in Hall'.
    by apply Hall'.
  - destruct (run_op_cancel_outcome ticket_id seats_to_cancel st) as [r Hout].
    destruct Hout as [st' Hno Hdb Hl Htr
                      |st' t refund Ht Hb Hrefund Hrows Htk Hl Htr];
      [by rewrite Hdb|].
    intros ts. rewrite Hrows. intros [_ Hin]%list_elem_of_filter.
    by apply Hgrid.
Qed.

Lemma in_grid_run dims ops st :
  Forall (op_in_bounds dims) ops →
  (∀ ts, ts ∈ ticket_seat (db st) →
         in_grid dims (ts_show_id ts) (ts_row ts, ts_col ts)) →
  ∀ ts, ts ∈ ticket_seat (db (run ops st)) →
        in_grid dims (ts_show_id ts) (ts_row ts, ts_col ts).
Proof.
  revert st. induction ops as [|o ops IH]; intros st Hops Hgrid; [done|].
  apply Forall_cons in Hops as [Ho Hops].
  apply IH; [done|]. by apply in_grid_run_op.
Qed.

(** The seat rows of the join are seat rows of the table, in table order. *)
Lemma join_ticket_sublist d : (fst <$> join_ticket d) `sublist_of` ticket_seat d.
Proof.
  unfold join_ticket. induction (ticket_seat d) as [|ts l IH]; [done|].
  cbn [omap list_omap].
  destruct (ticket d !! ts_ticket_id ts) as [t|]; simpl.
  - by apply sublist_skip.
  - by apply sublist_cons.
Qed.

Lemma booked_seats_NoDup d show_id :
  NoDup (seat_key <$> ticket_seat d) → NoDup (booked_seats d show_id).
Proof.
  intros Hkeys. unfold booked_seats.
  apply (NoDup_fmap_coarser _ (λ p, seat_key p.1)).
  - intros p q [[Hp _] _]%list_elem_of_filter [[Hq _] _]%list_elem_of_filter.
    intros [= Hr Hc]. unfold seat_key. by rewrite Hp, Hq, Hr, Hc.
  - eapply NoDup_fmap_sublist; [apply sublist_filter|].
    replace ((λ p : TicketSeat * Ticket, seat_key p.1) <$> join_ticket d)
      with (seat_key <$> (fst <$> join_ticket d))
      by (by rewrite <-list_fmap_compose).
    eapply NoDup_fmap_sublist; [apply join_ticket_sublist|done].
Qed.

Lemma booked_seats_elem d show_id seat :
  seat ∈ booked_seats d show_id →
  ∃ ts, ts ∈ ticket_seat d ∧ ts_show_id ts = show_id
        ∧ (ts_row ts, ts_col ts) = seat.
Proof.
  unfold booked_seats.
  intros ([ts t] & -> & Hin)%list_elem_of_fmap.
  apply list_elem_of_filter in Hin as [[Hs _] Hin].
  exists ts. split_and!; [|done|done].
  eapply elem_of_sublist; [|apply join_ticket_sublist].
  by apply (list_elem_of_fmap_2 fst) in Hin.
Qed.

(** ** Lifecycle invariants *)

(** C9, as the code has it: in every state that a sequence of [book_seats]
    and [cancel_seats] calls leads to from the empty store, the occupied
    pairs of a show (the rows of the query of [build_seat_map]) contain no
    pair twice; and they all lie within the grid of the show provided every
    [book_seats] call of the sequence was given the grid of its show and
    seats inside it: [book_seats] itself does not check that. *)
Theorem occupied_seats_invariant dims ops show_id :
  NoDup (booked_seats (db (run ops init_state)) show_id)
  ∧ (Forall (op_in_bounds dims) ops →
     Forall (in_grid dims show_id)
       (booked_seats (db (run ops init_state)) show_id)).
Proof.
  split.
  - apply booked_seats_NoDup.
    apply (store_inv_run ops init_state store_inv_init).
  - intros Hops. apply Forall_forall. intros seat Hseat.
    apply booked_seats_elem in Hseat as (ts & Hin & <- & <-).
    apply (in_grid_run dims ops init_state); [done| |done].
    intros ts' Hin'. by apply elem_of_nil in Hin'.
Qed.

Lemma occupied_seats_invariant_witness :
  Forall (op_in_bounds (λ _, (7, 7)))
    [BookSeats get_price 5 "asha" "9876543210" [(0, 0); (3, 3)] 7 7;
     CancelSeats 1 [(0, 0)]]
  ∧ Forall (in_grid (λ _, (7, 7)) 5)
      (booked_seats
         (db (run [BookSeats get_price 5 "asha" "9876543210" [(0, 0); (3, 3)]
                     7 7;
                   CancelSeats 1 [(0, 0)]] init_state)) 5).
Proof.
  assert (Forall (op_in_bounds (λ _, (7, 7)))
            [BookSeats get_price 5 "asha" "9876543210" [(0, 0); (3, 3)] 7 7;
             CancelSeats 1 [(0, 0)]]) as Hops.
  { repeat constructor; simpl; lia. }
  split; [exact Hops|].
  exact (proj2 (occupied_seats_invariant (λ _, (7, 7)) _ 5) Hops).
Defined.

(** C9 as stated fails: one call of [book_seats] for show 1, with the 7 x 7
    grid of the show, leaves the pair (7, 0) occupied. *)
Lemma occupied_seat_outside_grid :
  run [BookSeats get_price 1 "asha" "9876543210" [(7, 0)] 7 7] init_state
  = st_row7
  ∧ booked_seats (db st_row7) 1 = [(7, 0)]
  ∧ ¬ in_grid (λ _, (7, 7)) 1 (7, 0).
Proof.
  split_and!.
  - unfold run. cbn [foldl run_op].
    fold (book_seats 1 "asha" "9876543210" [(7, 0)] 7 7 init_state).
    by rewrite ex_book_row7.
  - by vm_compute.
  - unfold in_grid. simpl. lia.
Qed.

(** C10: in every state that a sequence of [book_seats] and [cancel_seats]
    calls leads to from the empty store, every seat row is owned by a ticket
    whose status is [BOOKED]; put the other way, a ticket whose status is
    [CANCELLED] owns no seat row. *)
Theorem seat_rows_belong_to_booked_tickets ops :
  Forall (λ ts, ∃ t, ticket (db (run ops init_state)) !! ts_ticket_id ts
                     = Some t ∧ t_status t = BOOKED)
    (ticket_seat (db (run ops init_state)))
  ∧ (∀ ticket_id t,
       ticket (db (run ops init_state)) !! ticket_id = Some t →
       t_status t = CANCELLED →
       seats_of_ticket (db (run ops init_state)) ticket_id = []).
Proof.
  destruct (store_inv_run ops init_state store_inv_init) as [Hown _].
  split.
  - by apply Forall_forall.
  - intros ticket_id t Ht Hc. apply elem_of_nil_inv.
    intros ts [Hid Hin]%list_elem_of_filter.
    destruct (Hown ts Hin) as (t' & Ht' & Hb). congruence.
Qed.

Lemma seat_rows_belong_to_booked_tickets_witness :
  run [BookSeats get_price 5 "asha" "9876543210" [(0, 0); (3, 3)] 7 7;
       CancelSeats 1 [(0, 0)]; CancelSeats 1 [(3, 3)]] init_state
  = st_none
  ∧ ticket (db st_none) !! 1
    = Some (mkTicket 5 "asha" "9876543210" CANCELLED 0)
  ∧ seats_of_ticket (db st_none) 1 = [].
Proof.
  assert (run [BookSeats get_price 5 "asha" "9876543210" [(0, 0); (3, 3)] 7 7;
               CancelSeats 1 [(0, 0)]; CancelSeats 1 [(3, 3)]] init_state
          = st_none) as Hrun.
  { vm_compute. reflexivity. }
  assert (ticket (db st_none) !! 1
          = Some (mkTicket 5 "asha" "9876543210" CANCELLED 0)) as Ht.
  { vm_compute. reflexivity. }
  split; [exact Hrun|]. split; [exact Ht|].
  rewrite <-Hrun in Ht |- *.
  exact (proj2 (seat_rows_belong_to_booked_tickets _) 1 _ Ht eq_refl).
Defined.

(** ** The price of a seat from booking to refund *)

Lemma priced_run_op price_of ticket_id o st :
  priced price_of ticket_id st → priced price_of ticket_id (run_op st o).
Proof.
  intros [Hthere Hprice].
  destruct o as [price_of' show_id user_name user_mobile seats rows cols
                |ticket_id' seats_to_cancel].
  - destruct (run_op_book_outcome price_of' show_id user_name user_mobile
                seats rows cols st) as [r Hout].
    destruct Hout as [Hnil|s Hne Hin Hs|st' Hne Hall Hdup Hdb Hl Htr
                      |st' ticket_id' total new_seats Hne Hall Hid Htotal Htk
                         Hrows Hcols Hnd Hfresh Hl Htr];
      [done|done|by unfold priced; rewrite Hdb|].
    assert (ticket_id' ≠ ticket_id) as Hother.
    { intros ->. subst ticket_id. rewrite next_rowid_fresh in Hthere.
      by destruct Hthere. }
    split.
    + by rewrite Htk, lookup_insert_ne.
    + intros ts. rewrite Hrows.
      intros [Hin|Hin]%elem_of_app Hid'; [by apply Hprice|].
      eapply new_seats_columns in Hin as (Hnew & _); [|done]. congruence.
  - destruct (run_op_cancel_outcome ticket_id' seats_to_cancel st)
      as [r Hout].
    destruct Hout as [st' Hno Hdb Hl Htr
                      |st' t refund Ht Hb Hrefund Hrows Htk Hl Htr];
      [by unfold priced; rewrite Hdb|].
    split.
    + rewrite Htk. destruct (decide (ticket_id' = ticket_id)) as [->|Hne].
      * by rewrite lookup_insert_eq.
      * by rewrite lookup_insert_ne.
    + intros ts. rewrite Hrows. intros [_ Hin]%list_elem_of_filter.
      by apply Hprice.
Qed.

Lemma priced_run price_of ticket_id ops st :
  priced price_of ticket_id st → priced price_of ticket_id (run ops st).
Proof.
  revert st. induction ops as [|o ops IH]; intros st Hpriced; [done|].
  apply IH, priced_run_op, Hpriced.
Qed.

Lemma priced_book price_of ticket_id show_id user_name user_mobile seats st
    st' total confirmed :
  store_inv (db st) →
  book_outcome price_of show_id user_name user_mobile seats st st'
    (Ok (ticket_id, total, confirmed)) →
  priced price_of ticket_id st'.
Proof.
  intros Hinv Hout.
  inversion Hout as [| | |st'' tid total' new_seats Hne Hall Hid Htotal Htk
                           Hrows Hcols Hnd Hfresh Hl Htr]; subst.
  split.
  - rewrite Htk, lookup_insert_eq. done.
  - intros ts. rewrite Hrows. intros [Hin|Hin]%elem_of_app Hts.
    + apply store_inv_foreign_keys in Hinv.
      apply Hinv in Hin. rewrite Hts, next_rowid_fresh in Hin.
      by destruct Hin.
    + by eapply new_seats_columns in Hin as (_ & _ & _ & Hp).
Qed.

(** C6: a seat booked under the pricing policy [price_of], at a price that
    the REAL column holds exactly, is refunded at [price_of] of its row by a
    later cancellation, whatever calls, under whatever pricing policies,
    were made in between (all of them with arguments the store takes), as
    long as the seat is still attached to the ticket: the price that
    [cancel_seats] looks up is the stored one, and [cancel_seats] has no
    access to a pricing policy. *)
Theorem price_round_trip price_of show_id user_name user_mobile seats rows cols
    before after st ticket_id total confirmed seat :
  Forall op_int64 before →
  book_int64 price_of show_id seats →
  Forall op_int64 after →
  exact_real (price_of seat.1) →
  book_seats_with price_of show_id user_name user_mobile seats rows cols
    (run before init_state)
  = (st, Ok (ticket_id, total, confirmed)) →
  seat ∈ get_user_seats (db (run after st)) ticket_id →
  stored_price (db (run after st)) ticket_id seat = Some (price_of seat.1)
  ∧ ∃ st', cancel_seats ticket_id [seat] (run after st)
           = (st', Ok (price_of seat.1)).
Proof.
  intros _ _ _ _ Hcall Hattached.
  assert (store_inv (db (run before init_state))) as Hinv0
    by apply store_inv_run, store_inv_init.
  pose proof (book_seats_with_outcome price_of show_id user_name user_mobile
                seats rows cols (run before init_state)) as Hout.
  rewrite Hcall in Hout. cbn [fst snd] in Hout.
  assert (store_inv (db (run after st))) as [Hown _].
  { apply store_inv_run. by eapply store_inv_book. }
  destruct (priced_run price_of ticket_id after st) as [_ Hprice].
  { by eapply priced_book. }
  apply list_elem_of_fmap in Hattached as (ts & -> & Hts).
  apply list_elem_of_filter in Hts as [Hid Hin].
  assert (stored_price (db (run after st)) ticket_id (ts_row ts, ts_col ts)
          = Some (price_of (ts_row ts))) as Hstored.
  { destruct (stored_price _ _ _) as [price|] eqn:Hsp.
    - apply stored_price_Some in Hsp
        as (ts' & Hin' & Hid' & [= Hr Hc] & <-).
      by rewrite (Hprice ts' Hin' Hid'), Hr.
    - exfalso. rewrite stored_price_None in Hsp. by apply (Hsp ts). }
  split; [done|].
  destruct (Hown ts Hin) as (t & Ht & Hb). rewrite Hid in Ht.
  destruct (cancel_seats_booked ticket_id [(ts_row ts, ts_col ts)] _ t Ht Hb)
    as (st' & Hcancel & _).
  exists st'. rewrite Hcancel. cbn [omap list_omap]. rewrite Hstored.
  cbn [fst]. do 2 f_equal. unfold sum_prices. simpl. lia.
Qed.

Lemma price_round_trip_witness :
  Forall op_int64 []
  ∧ book_int64 get_price 5 [(0, 0); (3, 3)]
  ∧ Forall op_int64
      [BookSeats (λ _, 999) 5 "ravi" "9123456780" [(1, 1)] 7 7;
       CancelSeats 1 [(0, 0)]]
  ∧ exact_real (get_price 3)
  ∧ book_seats_with get_price 5 "asha" "9876543210" [(0, 0); (3, 3)] 7 7
      (run [] init_state)
    = (st_a1_d4, Ok (1, 250, [(0, 0, 100); (3, 3, 150)]))
  ∧ (3, 3)
    ∈ get_user_seats
        (db (run [BookSeats (λ _, 999) 5 "ravi" "9123456780" [(1, 1)] 7 7;
                  CancelSeats 1 [(0, 0)]] st_a1_d4)) 1
  ∧ ∃ st',
      cancel_seats 1 [(3, 3)]
        (run [BookSeats (λ _, 999) 5 "ravi" "9123456780" [(1, 1)] 7 7;
              CancelSeats 1 [(0, 0)]] st_a1_d4)
      = (st', Ok (get_price 3)).
Proof.
  assert (Forall op_int64 []) as Hbefore by apply Forall_nil_2.
  assert (book_int64 get_price 5 [(0, 0); (3, 3)]) as Hbook by in_range.
  assert (Forall op_int64
            [BookSeats (λ _, 999) 5 "ravi" "9123456780" [(1, 1)] 7 7;
             CancelSeats 1 [(0, 0)]]) as Hafter.
  { apply Forall_cons_2; [in_range|].
    apply Forall_cons_2; [in_range|]. apply Forall_nil_2. }
  assert (exact_real (get_price 3)) as Hexact by in_range.
  assert ((3, 3)
          ∈ get_user_seats
              (db (run [BookSeats (λ _, 999) 5 "ravi" "9123456780" [(1, 1)]
                          7 7;
                        CancelSeats 1 [(0, 0)]] st_a1_d4)) 1) as Hattached.
  { vm_compute. left. }
  split; [exact Hbefore|]. split; [exact Hbook|]. split; [exact Hafter|].
  split; [exact Hexact|].
  split; [exact ex_book_a1_d4|]. split; [exact Hattached|].
  exact (proj2 (price_round_trip get_price 5 "asha" "9876543210"
                  [(0, 0); (3, 3)] 7 7 [] _ st_a1_d4 1 250 _ (3, 3)
                  Hbefore Hbook Hafter Hexact ex_book_a1_d4 Hattached)).
Defined.

(** * Further properties of the booking service *)

(** ** One seat cannot be sold twice in a row *)

Lemma second_booking_refused_witness :
  book_int64 get_price 5 [(0, 0); (3, 3)]
  ∧ Forall seat_int64 [(2, 2); (3, 3)]
  ∧ book_seats_with get_price 5 "asha" "9876543210" [(0, 0); (3, 3)] 7 7
      init_state
    = (st_a1_d4, Ok (1, 250, [(0, 0, 100); (3, 3, 150)]))
  ∧ ∃ s', s' ∈ [(2, 2); (3, 3)]
          ∧ is_seat_available (db st_a1_d4) 5 s'.1 s'.2 = false
          ∧ book_seats_with get_price 5 "ravi" "9123456780" [(2, 2); (3, 3)]
              7 7 st_a1_d4
            = (st_a1_d4,
               Raise (if bool_decide (0 ≤ 65 + s'.1 < 1114112)
                      then ValueError (AlreadyBooked s'.1 s'.2)
                      else ChrError)).
Proof.
  assert (book_int64 get_price 5 [(0, 0); (3, 3)]) as Hfirst.
  { in_range. }
  assert (Forall seat_int64 [(2, 2); (3, 3)]) as Hsecond.
  { in_range. }
  split; [exact Hfirst|]. split; [exact Hsecond|].
  split; [exact ex_book_a1_d4|].
  apply (second_booking_refused get_price 5 "asha" "9876543210"
           [(0, 0); (3, 3)] 7 7 get_price "ravi" "9123456780"
           [(2, 2); (3, 3)] 7 7 init_state st_a1_d4 _ (3, 3) Hfirst Hsecond
           ex_book_a1_d4).
  - right. left.
  - right. left.
Defined.

(** ** Locks and transactions are always closed *)

(** A call of [book_seats] leaves the trace in one of three ways: untouched
    (it raised before looking up the lock), extended by acquire, begin,
    commit, release (and then it returned), or extended by acquire, begin,
    rollback, release (and then it raised): the lock it takes is released
    and the transaction it opens is ended on every way out, and a commit
    goes with a returned result.  [cancel_seats] takes no lock; it begins
    one transaction and commits it exactly when it returns. *)
Theorem lock_and_transaction_discipline show_id user_name user_mobile seats
    rows cols ticket_id seats_to_cancel st :
  (let '(st', r) := book_seats show_id user_name user_mobile seats rows cols
                      st in
   (trace st' = trace st ∧ locks st' = locks st ∧ ∃ e, r = Raise e)
   ∨ (trace st'
      = trace st ++ [Acquire show_id; Begin; Commit; Release show_id]
      ∧ ∃ v, r = Ok v)
   ∨ (trace st'
      = trace st ++ [Acquire show_id; Begin; Rollback; Release show_id]
      ∧ ∃ e, r = Raise e))
  ∧ (let '(st', r) := cancel_seats ticket_id seats_to_cancel st in
     locks st' = locks st
     ∧ ((trace st' = trace st ++ [Begin; Commit] ∧ ∃ v, r = Ok v)
        ∨ (trace st' = trace st ++ [Begin; Rollback] ∧ ∃ e, r = Raise e))).
Proof.
  split.
  - pose proof (book_seats_with_outcome get_price show_id user_name
                  user_mobile seats rows cols st) as Hout.
    fold (book_seats show_id user_name user_mobile seats rows cols st)
      in Hout.
    destruct (book_seats show_id user_name user_mobile seats rows cols st)
      as [st' r]. cbn [fst snd] in Hout.
    destruct Hout as [Hnil|s Hne Hin Hs|st' Hne Hall Hno Hdb Hl Htr
                      |st' tid total new_seats Hne Hall Hid Htotal Htk
                         Hrows Hcols Hnd Hfresh Hl Htr]; eauto 10.
  - pose proof (cancel_seats_outcome ticket_id seats_to_cancel st) as Hout.
    destruct (cancel_seats ticket_id seats_to_cancel st) as [st' r].
    cbn [fst snd] in Hout.
    destruct Hout as [st' Hno Hdb Hl Htr
                      |st' t refund Ht Hb Hrefund Hrows Htk Hl Htr];
      eauto 10.
Qed.

(** ** Cancelling what is not booked *)

(** [cancel_seats] on a ticket id that the store takes (a 64-bit integer)
    and that is absent, or whose ticket is not [BOOKED], raises the
    [ValueError] "Ticket not found or not in BOOKED status" and leaves the
    store as it was, whatever seats are named.  So once a cancellation has
    removed the last seat of a ticket, every further cancellation of that
    ticket is refused: nothing is refunded twice. *)
Theorem cancel_seats_not_booked ticket_id seats_to_cancel st :
  int64 ticket_id →
  ((∀ t, ticket (db st) !! ticket_id = Some t → t_status t = CANCELLED) →
   ∃ st', cancel_seats ticket_id seats_to_cancel st
          = (st', Raise (ValueError TicketNotBooked))
          ∧ db st' = db st)
  ∧ (∀ st0 seats0 refund,
       Forall seat_int64 seats0 →
       cancel_seats ticket_id seats0 st0 = (st, Ok refund) →
       seats_of_ticket (db st) ticket_id = [] →
       ∃ st', cancel_seats ticket_id seats_to_cancel st
              = (st', Raise (ValueError TicketNotBooked))
              ∧ db st' = db st).
Proof.
  intros _.
  assert ((∀ t, ticket (db st) !! ticket_id = Some t → t_status t = CANCELLED)
          → ∃ st', cancel_seats ticket_id seats_to_cancel st
                   = (st', Raise (ValueError TicketNotBooked))
                   ∧ db st' = db st) as Hrefused.
  { intros Hnot.
    pose proof (cancel_seats_outcome ticket_id seats_to_cancel st) as Hout.
    destruct (cancel_seats ticket_id seats_to_cancel st) as [st' r].
    cbn [fst snd] in Hout.
    destruct Hout as [st' Hno Hdb Hl Htr
                      |st' t refund Ht Hb Hrefund Hrows Htk Hl Htr].
    - by exists st'.
    - apply Hnot in Ht. congruence. }
  split; [done|].
  intros st0 seats0 refund _ Hcall Hnone. apply Hrefused.
  pose proof (cancel_seats_outcome ticket_id seats0 st0) as Hout.
  rewrite Hcall in Hout. cbn [fst snd] in Hout.
  inversion Hout as [|st'' t0 refund' Ht0 Hb Hrefund Hrows Htk Hl Htr]; subst.
  intros t. rewrite Htk, lookup_insert_eq, decide_True by done.
  by intros [= <-].
Qed.

Lemma cancel_seats_not_booked_witness :
  int64 1
  ∧ Forall seat_int64 [(3, 3)]
  ∧ cancel_seats 1 [(3, 3)] st_d4 = (st_none, Ok 150)
  ∧ seats_of_ticket (db st_none) 1 = []
  ∧ ∃ st', cancel_seats 1 [(3, 3)] st_none
           = (st', Raise (ValueError TicketNotBooked))
           ∧ db st' = db st_none.
Proof.
  assert (int64 1) as Hid by in_range.
  assert (Forall seat_int64 [(3, 3)]) as Hseats by in_range.
  assert (seats_of_ticket (db st_none) 1 = []) as Hnone by reflexivity.
  split; [exact Hid|]. split; [exact Hseats|].
  split; [exact ex_cancel_d4|]. split; [exact Hnone|].
  exact (proj2 (cancel_seats_not_booked 1 [(3, 3)] st_none Hid) st_d4
           [(3, 3)] 150 Hseats ex_cancel_d4 Hnone).
Defined.

(** ** Tickets are kept *)

Lemma ticket_kept_run_op o st ticket_id t :
  ticket (db st) !! ticket_id = Some t →
  ∃ t', ticket (db (run_op st o)) !! ticket_id = Some t'
        ∧ t_show_id t' = t_show_id t ∧ t_user t' = t_user t
        ∧ t_mobile t' = t_mobile t
        ∧ (t_status t = CANCELLED → t' = t).
Proof.
  intros Ht.
  destruct o as [price_of show_id user_name user_mobile seats rows cols
                |ticket_id' seats_to_cancel].
  - destruct (run_op_book_outcome price_of show_id user_name user_mobile seats
                rows cols st) as [r Hout].
    destruct Hout as [Hnil|s Hne Hin Hs|st' Hne Hall Hdup Hdb Hl Htr
                      |st' tid total new_seats Hne Hall Hid Htotal Htk
                         Hrows Hcols Hnd Hfresh Hl Htr];
      [by exists t|by exists t|rewrite Hdb; by exists t|].
    exists t. split; [|done]. rewrite Htk, lookup_insert_ne; [done|].
    intros <-. subst tid. by rewrite next_rowid_fresh in Ht.
  - destruct (run_op_cancel_outcome ticket_id' seats_to_cancel st)
      as [r Hout].
    destruct Hout as [st' Hno Hdb Hl Htr
                      |st' t0 refund Ht0 Hb Hrefund Hrows Htk Hl Htr];
      [rewrite Hdb; by exists t|].
    rewrite Htk. destruct (decide (ticket_id' = ticket_id)) as [->|Hne].
    + rewrite lookup_insert_eq. rewrite Ht in Ht0. injection Ht0 as <-.
      eexists. split; [done|].
      case_decide; split_and!; try done; intros Hc; congruence.
    + rewrite lookup_insert_ne by done. by exists t.
Qed.

(** No call deletes a ticket or changes its show, user or mobile number,
    and a ticket that is [CANCELLED] is never changed again (it stays
    [CANCELLED] with total 0 once a cancellation has put it there). *)
Theorem tickets_are_kept ops st ticket_id t :
  ticket (db st) !! ticket_id = Some t →
  ∃ t', ticket (db (run ops st)) !! ticket_id = Some t'
        ∧ t_show_id t' = t_show_id t ∧ t_user t' = t_user t
        ∧ t_mobile t' = t_mobile t
        ∧ (t_status t = CANCELLED → t' = t).
Proof.
  revert st t. induction ops as [|o ops IH]; intros st t Ht.
  - by exists t.
  - destruct (ticket_kept_run_op o st ticket_id t Ht)
      as (t1 & Ht1 & Hs1 & Hu1 & Hm1 & Hc1).
    destruct (IH _ t1 Ht1) as (t' & Ht' & Hs & Hu & Hm & Hc).
    exists t'. split; [done|]. split_and!; try congruence.
    intros Hcancelled. specialize (Hc1 Hcancelled). subst t1. by apply Hc.
Qed.

Lemma tickets_are_kept_witness :
  ticket (db st_a1_d4) !! 1
  = Some (mkTicket 5 "asha" "9876543210" BOOKED 250)
  ∧ ∃ t', ticket (db (run [CancelSeats 1 [(0, 0)];
                           BookSeats get_price 5 "ravi" "9123456780"
                             [(0, 0)] 7 7] st_a1_d4)) !! 1
          = Some t'
          ∧ t_user t' = "asha".
Proof.
  assert (ticket (db st_a1_d4) !! 1
          = Some (mkTicket 5 "asha" "9876543210" BOOKED 250)) as Ht
    by reflexivity.
  split; [exact Ht|].
  destruct (tickets_are_kept
              [CancelSeats 1 [(0, 0)];
               BookSeats get_price 5 "ravi" "9123456780" [(0, 0)] 7 7]
              st_a1_d4 1 _ Ht) as (t' & Ht' & _ & Hu & _).
  exists t'. split; [exact Ht'|exact Hu].
Defined.

(** ** A cancellation touches one ticket only *)

(** Whatever a call of [cancel_seats] on one ticket does, every other
    ticket keeps its row of [ticket] and all its seat rows. *)
Theorem cancel_seats_frame ticket_id seats_to_cancel st st' r other :
  cancel_seats ticket_id seats_to_cancel st = (st', r) →
  other ≠ ticket_id →
  ticket (db st') !! other = ticket (db st) !! other
  ∧ seats_of_ticket (db st') other = seats_of_ticket (db st) other.
Proof.
  intros Hcall Hother.
  pose proof (cancel_seats_outcome ticket_id seats_to_cancel st) as Hout.
  rewrite Hcall in Hout. cbn [fst snd] in Hout.
  destruct Hout as [st' Hno Hdb Hl Htr
                    |st' t refund Ht Hb Hrefund Hrows Htk Hl Htr].
  - unfold seats_of_ticket. by rewrite Hdb.
  - split.
    + by rewrite Htk, lookup_insert_ne.
    + unfold seats_of_ticket. rewrite Hrows, list_filter_filter.
      apply list_filter_iff. intros ts. unfold cancelled_row.
      split; [tauto|]. intros Hid. split; [done|]. intros [Hid' _].
      congruence.
Qed.

Lemma cancel_seats_frame_witness :
  cancel_seats 1 [(0, 0)] st_a1_d4 = (st_d4, Ok 100)
  ∧ 2 ≠ 1
  ∧ seats_of_ticket (db st_d4) 2 = seats_of_ticket (db st_a1_d4) 2.
Proof.
  assert (2 ≠ 1) as Hne by lia.
  split; [exact ex_cancel_a1|]. split; [exact Hne|].
  exact (proj2 (cancel_seats_frame 1 [(0, 0)] st_a1_d4 st_d4 _ 2
                  ex_cancel_a1 Hne)).
Defined.

(** ** From booking to the list of the ticket's seats *)

Lemma get_user_seats_new price_of ticket_id show_id (seats : list (Z * Z))
    (new_seats : list TicketSeat) d d' :
  foreign_keys_ok d →
  ticket d !! ticket_id = None →
  ticket_seat d' = ticket_seat d ++ new_seats →
  ts_columns <$> new_seats
  = (λ s, (ticket_id, show_id, s.1, s.2, price_of s.1)) <$> seats →
  get_user_seats d' ticket_id = seats.
Proof.
  intros Hfk Hfree Hrows Hcols. unfold get_user_seats.
  fold (seats_of_ticket d' ticket_id).
  rewrite (seats_of_ticket_new price_of ticket_id show_id seats new_seats d d')
    by done.
  transitivity ((λ c : Z * Z * Z * Z * Z, (c.1.1.2, c.1.2))
                  <$> (ts_columns <$> new_seats)).
  - by rewrite <-list_fmap_compose.
  - rewrite Hcols, <-list_fmap_compose.
    rewrite <-(list_fmap_id seats) at 2. apply list_fmap_ext.
    by intros _ [row col] _.
Qed.

(** After any run, a call of [book_seats] that returns has booked distinct
    seats, and [get_user_seats] on the returned ticket id lists exactly the
    requested seats, in the order of the request. *)
Theorem booked_seats_are_listed ops show_id user_name user_mobile seats rows
    cols st' ticket_id total confirmed :
  book_seats show_id user_name user_mobile seats rows cols
    (run ops init_state)
  = (st', Ok (ticket_id, total, confirmed)) →
  get_user_seats (db st') ticket_id = seats ∧ NoDup seats.
Proof.
  intros Hcall.
  pose proof (book_seats_with_outcome get_price show_id user_name user_mobile
                seats rows cols (run ops init_state)) as Hout.
  unfold book_seats in Hcall. rewrite Hcall in Hout. cbn [fst snd] in Hout.
  inversion Hout as [| | |st'' tid total' new_seats Hne Hall Hid Htotal Htk
                           Hrows Hcols Hnd Hfresh Hl Htr]; subst.
  split.
  - eapply get_user_seats_new; [|apply next_rowid_fresh|done..].
    apply store_inv_foreign_keys, store_inv_run, store_inv_init.
  - assert (NoDup ((λ s : Z * Z, (show_id, s.1, s.2)) <$> seats)) as Hkeys.
    { replace ((λ s : Z * Z, (show_id, s.1, s.2)) <$> seats)
        with (seat_key <$> new_seats); [done|].
      transitivity ((λ c : Z * Z * Z * Z * Z, (c.1.1.1.2, c.1.1.2, c.1.2))
                      <$> (ts_columns <$> new_seats)).
      - by rewrite <-list_fmap_compose.
      - rewrite Hcols, <-list_fmap_compose. done. }
    by apply NoDup_fmap_1 in Hkeys.
Qed.

Lemma booked_seats_are_listed_witness :
  book_seats 5 "asha" "9876543210" [(0, 0); (3, 3)] 7 7 (run [] init_state)
  = (st_a1_d4, Ok (1, 250, [(0, 0, 100); (3, 3, 150)]))
  ∧ get_user_seats (db st_a1_d4) 1 = [(0, 0); (3, 3)].
Proof.
  split; [exact ex_book_a1_d4|].
  exact (proj1 (booked_seats_are_listed [] 5 "asha" "9876543210"
                  [(0, 0); (3, 3)] 7 7 st_a1_d4 1 250 _ ex_book_a1_d4)).
Defined.

(** ** Seat rows and the ticket that owns them *)


Lemma same_show_book price_of show_id user_name user_mobile seats st st' r :
  book_outcome price_of show_id user_name user_mobile seats st st' r →
  store_inv (db st) → same_show (db st) → same_show (db st').
Proof.
  intros Hout Hinv Hsame.
  destruct Hout as [Hnil|s Hne Hin Hs|st' Hne Hall Hdup Hdb Hl Htr
                    |st' ticket_id total new_seats Hne Hall Hid Htotal Htk
                       Hrows Hcols Hnd Hfresh Hl Htr];
    [done|done|by rewrite Hdb|].
  assert (ticket (db st) !! ticket_id = None) as Hfree.
  { subst ticket_id. apply next_rowid_fresh. }
  intros ts t. rewrite Hrows, Htk. intros [Hin|Hin]%elem_of_app.
  - rewrite lookup_insert_ne; [by apply Hsame|].
    apply store_inv_foreign_keys in Hinv. apply Hinv in Hin as [t0 Ht0].
    congruence.
  - eapply new_seats_columns in Hin as (-> & -> & _); [|done].
    rewrite lookup_insert_eq. by intros [= <-].
Qed.

Lemma same_show_cancel ticket_id seats_to_cancel st st' r :
  cancel_outcome ticket_id seats_to_cancel st st' r →
  same_show (db st) → same_show (db st').
Proof.
  intros Hout Hsame.
  destruct Hout as [st' Hno Hdb Hl Htr
                    |st' t refund Ht Hb Hrefund Hrows Htk Hl Htr];
    [by rewrite Hdb|].
  intros ts t'. rewrite Hrows, Htk. intros [_ Hin]%list_elem_of_filter.
  destruct (decide (ts_ticket_id ts = ticket_id)) as [Hid|Hid].
  - rewrite Hid, lookup_insert_eq. intros [= <-].
    rewrite (Hsame ts t Hin) by by rewrite Hid.
    by case_decide.
  - rewrite lookup_insert_ne by done. by apply Hsame.
Qed.

Lemma owners_run ops st :
  store_inv (db st) → same_show (db st) →
  store_inv (db (run ops st)) ∧ same_show (db (run ops st)).
Proof.
  revert st. induction ops as [|o ops IH]; intros st Hinv Hsame; [done|].
  apply IH; [by apply store_inv_run_op|].
  destruct o as [price_of show_id user_name user_mobile seats rows cols
                |ticket_id seats_to_cancel].
  - destruct (run_op_book_outcome price_of show_id user_name user_mobile seats
                rows cols st) as [r Hout].
    by eapply same_show_book.
  - destruct (run_op_cancel_outcome ticket_id seats_to_cancel st) as [r Hout].
    by eapply same_show_cancel.
Qed.

Lemma same_show_init : same_show (db init_state).
Proof. intros ts t Hin. by apply elem_of_nil in Hin. Qed.

(** The seat rows of one ticket are at distinct places. *)
Lemma ticket_positions_NoDup d ticket_id :
  store_inv d → same_show d →
  NoDup (seat_pos <$> seats_of_ticket d ticket_id).
Proof.
  intros [Hown Hkeys] Hsame.
  apply (NoDup_fmap_coarser _ seat_key).
  - intros x y [Hx Hxin]%list_elem_of_filter [Hy Hyin]%list_elem_of_filter.
    intros [= Hr Hc]. unfold seat_key. rewrite Hr, Hc. do 2 f_equal.
    destruct (Hown x Hxin) as (t & Ht & _).
    rewrite (Hsame x t Hxin Ht). rewrite Hx, <-Hy in Ht.
    by rewrite (Hsame y t Hyin Ht).
  - eapply NoDup_fmap_sublist; [apply sublist_filter|done].
Qed.

(** ** Sums of prices over parts of a table *)

Lemma sum_prices_filter_split {A} (f : A → Z) (P : A → Prop)
    `{∀ x, Decision (P x)} (l : list A) :
  sum_prices (f <$> l)
  = sum_prices (f <$> filter P l)
    + sum_prices (f <$> filter (λ x, ¬ P x) l).
Proof.
  induction l as [|x l IH]; [done|].
  rewrite fmap_cons, sum_prices_cons, IH.
  destruct (decide (P x)) as [HP|HP].
  - rewrite (filter_cons_True P) by done.
    rewrite (filter_cons_False (λ x, ¬ P x)) by tauto.
    rewrite fmap_cons, sum_prices_cons. lia.
  - rewrite (filter_cons_False P) by done.
    rewrite (filter_cons_True (λ x, ¬ P x)) by done.
    rewrite fmap_cons, sum_prices_cons. lia.
Qed.

Lemma sum_prices_filter_or {A} (f : A → Z) (P Q : A → Prop)
    `{∀ x, Decision (P x)} `{∀ x, Decision (Q x)} (l : list A) :
  (∀ x, P x → Q x → False) →
  sum_prices (f <$> filter (λ x, P x ∨ Q x) l)
  = sum_prices (f <$> filter P l) + sum_prices (f <$> filter Q l).
Proof.
  intros Hdisj. induction l as [|x l IH]; [done|].
  destruct (decide (P x)) as [HP|HP]; destruct (decide (Q x)) as [HQ|HQ].
  - by destruct (Hdisj x).
  - rewrite (filter_cons_True (λ x, P x ∨ Q x)) by tauto.
    rewrite (filter_cons_True P), (filter_cons_False Q) by done.
    rewrite !fmap_cons, !sum_prices_cons, IH. lia.
  - rewrite (filter_cons_True (λ x, P x ∨ Q x)) by tauto.
    rewrite (filter_cons_False P), (filter_cons_True Q) by done.
    rewrite !fmap_cons, !sum_prices_cons, IH. lia.
  - rewrite (filter_cons_False (λ x, P x ∨ Q x)) by tauto.
    rewrite (filter_cons_False P), (filter_cons_False Q) by done.
    done.
Qed.

Lemma filter_none {A} (P : A → Prop) `{∀ x, Decision (P x)} (l : list A) :
  (∀ x, x ∈ l → ¬ P x) → filter P l = [].
Proof.
  intros Hno. apply elem_of_nil_inv. intros x [HP Hin]%list_elem_of_filter.
  by apply (Hno x).
Qed.

(** At a place where the rows are at distinct places there is at most one
    row: the first price found there is the sum of the prices there. *)
Lemma sum_prices_at_place (l : list TicketSeat) s :
  NoDup (seat_pos <$> l) →
  sum_prices (ts_price <$> filter (λ ts, seat_pos ts = s) l)
  = default 0 (head (ts_price <$> filter (λ ts, seat_pos ts = s) l)).
Proof.
  induction l as [|ts l IH]; intros Hnd; [done|].
  rewrite fmap_cons in Hnd. apply NoDup_cons in Hnd as [Hts Hnd].
  destruct (decide (seat_pos ts = s)) as [Hs|Hs].
  - rewrite filter_cons_True by done.
    rewrite (filter_none (λ ts, seat_pos ts = s) l).
    + simpl. lia.
    + intros ts' Hin Hs'. apply Hts. rewrite Hs, <-Hs'.
      by apply list_elem_of_fmap_2.
  - rewrite filter_cons_False by done. by apply IH.
Qed.

Lemma stored_price_seats_of_ticket d ticket_id s :
  stored_price d ticket_id s
  = head (ts_price <$> filter (λ ts, seat_pos ts = s)
                         (seats_of_ticket d ticket_id)).
Proof.
  unfold stored_price, fetchone, select_price, seats_of_ticket.
  rewrite list_filter_filter. do 2 f_equal.
  apply list_filter_iff. intros ts. destruct s as [row col].
  unfold seat_pos. simpl. split.
  - intros (Ht & Hr & Hc). by rewrite Hr, Hc.
  - intros [[= Hr Hc] Ht]. done.
Qed.

(** The refund of a request that names no seat twice is the sum of the
    prices of the rows it deletes. *)
Lemma refund_distinct d ticket_id seats_to_cancel :
  NoDup (seat_pos <$> seats_of_ticket d ticket_id) →
  NoDup seats_to_cancel →
  sum_prices (omap (stored_price d ticket_id) seats_to_cancel)
  = sum_prices (ts_price <$> filter (λ ts, seat_pos ts ∈ seats_to_cancel)
                               (seats_of_ticket d ticket_id)).
Proof.
  intros Hpos. induction seats_to_cancel as [|s cs IH]; intros Hnd.
  - rewrite filter_none; [done|]. intros ts _ Hin. by apply elem_of_nil in Hin.
  - apply NoDup_cons in Hnd as [Hs Hnd].
    rewrite (list_filter_iff (λ ts, seat_pos ts ∈ s :: cs)
               (λ ts, seat_pos ts = s ∨ seat_pos ts ∈ cs))
      by (intros ts; apply elem_of_cons).
    rewrite sum_prices_filter_or by (intros ts -> Hin; done).
    rewrite <-IH by done. rewrite sum_prices_at_place by done.
    cbn [omap list_omap]. rewrite stored_price_seats_of_ticket.
    destruct (head _) as [price|]; cbn [default from_option id]; [|lia].
    by rewrite sum_prices_cons.
Qed.

Lemma seats_of_ticket_after_cancel ticket_id seats_to_cancel d d' :
  ticket_seat d'
  = filter (λ ts, ¬ cancelled_row ticket_id seats_to_cancel ts)
      (ticket_seat d) →
  seats_of_ticket d' ticket_id
  = filter (λ ts, ¬ seat_pos ts ∈ seats_to_cancel)
      (seats_of_ticket d ticket_id).
Proof.
  intros Hrows. unfold seats_of_ticket. rewrite Hrows, !list_filter_filter.
  apply list_filter_iff. intros ts. unfold cancelled_row, seat_pos. tauto.
Qed.

(** ** A cancelled seat is free again *)



(** ** Cancelling all the seats of a ticket *)

Lemma get_seats_for_ticket_Permutation d ticket_id :
  get_seats_for_ticket d ticket_id ≡ₚ seat_pos <$> seats_of_ticket d ticket_id.
Proof. unfold get_seats_for_ticket. apply merge_sort_Permutation. Qed.

(** After any run, cancelling the seats that [get_seats_for_ticket] lists
    for a [BOOKED] ticket (the "ALL" of the cancellation menu) returns the
    sum of the stored prices of the ticket's seat rows, deletes all of them
    and leaves the ticket [CANCELLED] with total 0. *)
Theorem cancel_all_seats ops ticket_id t :
  ticket (db (run ops init_state)) !! ticket_id = Some t →
  t_status t = BOOKED →
  ∃ st',
    cancel_seats ticket_id
      (get_seats_for_ticket (db (run ops init_state)) ticket_id)
      (run ops init_state)
    = (st',
       Ok (sum_prices
             (ts_price <$> seats_of_ticket (db (run ops init_state))
                             ticket_id)))
    ∧ seats_of_ticket (db st') ticket_id = []
    ∧ ticket (db st') !! ticket_id = Some (set_cancelled t).
Proof.
  intros Ht Hb. set (st := run ops init_state) in *.
  destruct (owners_run ops init_state store_inv_init same_show_init)
    as [Hinv Hsame]. fold st in Hinv, Hsame.
  pose proof (ticket_positions_NoDup (db st) ticket_id Hinv Hsame) as Hpos.
  pose proof (get_seats_for_ticket_Permutation (db st) ticket_id) as Hperm.
  set (cs := get_seats_for_ticket (db st) ticket_id) in *.
  assert (NoDup cs) as Hnd by by rewrite Hperm.
  assert (∀ ts, ts ∈ seats_of_ticket (db st) ticket_id → seat_pos ts ∈ cs)
    as Hall.
  { intros ts Hin. rewrite Hperm. by apply list_elem_of_fmap_2. }
  pose proof (cancel_seats_outcome ticket_id cs st) as Hout.
  destruct (cancel_seats ticket_id cs st) as [st' r]. cbn [fst snd] in Hout.
  destruct Hout as [st' Hno Hdb Hl Htr
                    |st' t' refund Ht' Hb' Hrefund Hrows Htk Hl Htr].
  { apply Hno in Ht. congruence. }
  rewrite Ht in Ht'. injection Ht' as <-.
  assert (seats_of_ticket (db st') ticket_id = []) as Hnone.
  { rewrite (seats_of_ticket_after_cancel ticket_id cs (db st)) by done.
    apply filter_none. intros ts Hin Hno. by apply Hno, Hall. }
  exists st'. split_and!; [|done|].
  - do 2 f_equal. rewrite Hrefund, refund_distinct by done.
    by rewrite filter_all.
  - by rewrite Htk, lookup_insert_eq, decide_True.
Qed.

Lemma cancel_all_seats_witness :
  ticket (db (run [BookSeats get_price 5 "asha" "9876543210"
                     [(3, 3); (0, 0)] 7 7] init_state)) !! 1
  = Some (mkTicket 5 "asha" "9876543210" BOOKED 250)
  ∧ get_seats_for_ticket
      (db (run [BookSeats get_price 5 "asha" "9876543210" [(3, 3); (0, 0)]
                  7 7] init_state)) 1
    = [(0, 0); (3, 3)]
  ∧ ∃ st',
      cancel_seats 1
        (get_seats_for_ticket
           (db (run [BookSeats get_price 5 "asha" "9876543210"
                       [(3, 3); (0, 0)] 7 7] init_state)) 1)
        (run [BookSeats get_price 5 "asha" "9876543210" [(3, 3); (0, 0)]
                7 7] init_state)
      = (st',
         Ok (sum_prices
               (ts_price <$>
                seats_of_ticket
                  (db (run [BookSeats get_price 5 "asha" "9876543210"
                              [(3, 3); (0, 0)] 7 7] init_state)) 1)))
      ∧ seats_of_ticket (db st') 1 = [].
Proof.
  assert (ticket (db (run [BookSeats get_price 5 "asha" "9876543210"
                             [(3, 3); (0, 0)] 7 7] init_state)) !! 1
          = Some (mkTicket 5 "asha" "9876543210" BOOKED 250)) as Ht.
  { vm_compute. reflexivity. }
  split; [exact Ht|]. split; [vm_compute; reflexivity|].
  destruct (cancel_all_seats _ 1 _ Ht eq_refl) as (st' & Hcall & Hnone & _).
  exists st'. split; [exact Hcall|exact Hnone].
Defined.

(** ** The total of a ticket and the prices of its seats *)

Lemma new_seats_prices price_of ticket_id show_id (seats : list (Z * Z))
    (new_seats : list TicketSeat) :
  ts_columns <$> new_seats
  = (λ s, (ticket_id, show_id, s.1, s.2, price_of s.1)) <$> seats →
  ts_price <$> new_seats = price_of ∘ fst <$> seats.
Proof.
  intros Hcols.
  transitivity ((λ c : Z * Z * Z * Z * Z, c.2) <$> (ts_columns <$> new_seats)).
  - by rewrite <-list_fmap_compose.
  - by rewrite Hcols, <-list_fmap_compose.
Qed.

Lemma seats_of_ticket_other price_of ticket_id show_id (seats : list (Z * Z))
    (new_seats : list TicketSeat) d d' other :
  other ≠ ticket_id →
  ticket_seat d' = ticket_seat d ++ new_seats →
  ts_columns <$> new_seats
  = (λ s, (ticket_id, show_id, s.1, s.2, price_of s.1)) <$> seats →
  seats_of_ticket d' other = seats_of_ticket d other.
Proof.
  intros Hother Hrows Hcols. unfold seats_of_ticket.
  rewrite Hrows, filter_app.
  rewrite (filter_none _ new_seats); [by rewrite app_nil_r|].
  intros ts Hin Hid. eapply new_seats_columns in Hin as (Hnew & _); [|done].
  congruence.
Qed.

Lemma totals_book price_of show_id user_name user_mobile seats st st' r :
  book_outcome price_of show_id user_name user_mobile seats st st' r →
  foreign_keys_ok (db st) → totals_ok (db st) → totals_ok (db st').
Proof.
  intros Hout Hfk Htotals.
  destruct Hout as [Hnil|s Hne Hin Hs|st' Hne Hall Hdup Hdb Hl Htr
                    |st' ticket_id total new_seats Hne Hall Hid Htotal Htk
                       Hrows Hcols Hnd Hfresh Hl Htr];
    [done|done|by rewrite Hdb|].
  assert (ticket (db st) !! ticket_id = None) as Hfree.
  { subst ticket_id. apply next_rowid_fresh. }
  intros other t. rewrite Htk.
  destruct (decide (ticket_id = other)) as [<-|Hother].
  - rewrite lookup_insert_eq. intros [= <-]. simpl.
    rewrite (seats_of_ticket_new price_of ticket_id show_id seats new_seats
               (db st) (db st')) by done.
    by rewrite (new_seats_prices price_of ticket_id show_id seats).
  - rewrite lookup_insert_ne by done. intros Ht.
    rewrite (seats_of_ticket_other price_of ticket_id show_id seats new_seats
               (db st) (db st')) by done.
    by apply Htotals.
Qed.

Lemma totals_cancel ticket_id seats_to_cancel st st' r :
  cancel_outcome ticket_id seats_to_cancel st st' r →
  NoDup seats_to_cancel →
  store_inv (db st) → same_show (db st) →
  totals_ok (db st) → totals_ok (db st').
Proof.
  intros Hout Hnd Hinv Hsame Htotals.
  pose proof (ticket_positions_NoDup (db st) ticket_id Hinv Hsame) as Hpos.
  destruct Hout as [st' Hno Hdb Hl Htr
                    |st' t refund Ht Hb Hrefund Hrows Htk Hl Htr];
    [by rewrite Hdb|].
  intros other t'. rewrite Htk.
  destruct (decide (ticket_id = other)) as [<-|Hother].
  - rewrite lookup_insert_eq. intros [= <-].
    case_decide as Hleft; [done|]. simpl. rewrite Hb.
    rewrite (seats_of_ticket_after_cancel ticket_id seats_to_cancel (db st))
      by done.
    pose proof (Htotals ticket_id t Ht) as Htotal. rewrite Hb in Htotal.
    rewrite Htotal, Hrefund, refund_distinct by done.
    rewrite (sum_prices_filter_split ts_price
               (λ ts, seat_pos ts ∈ seats_to_cancel)
               (seats_of_ticket (db st) ticket_id)).
    lia.
  - rewrite lookup_insert_ne by done. intros Ht'.
    replace (seats_of_ticket (db st') other)
      with (seats_of_ticket (db st) other); [by apply Htotals|].
    unfold seats_of_ticket. rewrite Hrows, list_filter_filter.
    apply list_filter_iff. intros ts. unfold cancelled_row.
    split; [|tauto]. intros Hid. split; [done|]. intros [Hid' _].
    congruence.
Qed.

Lemma totals_run ops st :
  Forall op_distinct ops →
  store_inv (db st) → same_show (db st) → totals_ok (db st) →
  totals_ok (db (run ops st)).
Proof.
  revert st.
  induction ops as [|o ops IH]; intros st Hops Hinv Hsame Htotals; [done|].
  apply Forall_cons in Hops as [Ho Hops].
  destruct (owners_run [o] st Hinv Hsame) as [Hinv' Hsame'].
  apply IH; [done..|].
  destruct o as [price_of show_id user_name user_mobile seats rows cols
                |ticket_id seats_to_cancel].
  - destruct (run_op_book_outcome price_of show_id user_name user_mobile seats
                rows cols st) as [r Hout].
    eapply totals_book; [done| |done]. by apply store_inv_foreign_keys.
  - destruct (run_op_cancel_outcome ticket_id seats_to_cancel st) as [r Hout].
    by eapply totals_cancel.
Qed.

Lemma totals_init : totals_ok (db init_state).
Proof. intros other t Ht. simpl in Ht. by rewrite lookup_empty in Ht. Qed.

(** In every state that a run leads to from the empty store, provided no
    cancellation of the run names a seat twice, the total of every [BOOKED]
    ticket is the sum of the stored prices of the seat rows it still owns,
    and the total of every [CANCELLED] ticket is 0. *)
Theorem totals_match_seats ops ticket_id t :
  Forall op_distinct ops →
  ticket (db (run ops init_state)) !! ticket_id = Some t →
  t_total t
  = match t_status t with
    | BOOKED =>
        sum_prices
          (ts_price <$> seats_of_ticket (db (run ops init_state)) ticket_id)
    | CANCELLED => 0
    end.
Proof.
  intros Hops Ht.
  by apply (totals_run ops init_state Hops store_inv_init same_show_init
              totals_init).
Qed.

Lemma totals_match_seats_witness :
  Forall op_distinct
    [BookSeats get_price 5 "asha" "9876543210" [(0, 0); (3, 3)] 7 7;
     CancelSeats 1 [(0, 0)]]
  ∧ ticket (db (run [BookSeats get_price 5 "asha" "9876543210"
                       [(0, 0); (3, 3)] 7 7;
                     CancelSeats 1 [(0, 0)]] init_state)) !! 1
    = Some (mkTicket 5 "asha" "9876543210" BOOKED 150)
  ∧ sum_prices
      (ts_price <$>
       seats_of_ticket
         (db (run [BookSeats get_price 5 "asha" "9876543210"
                     [(0, 0); (3, 3)] 7 7;
                   CancelSeats 1 [(0, 0)]] init_state)) 1)
    = 150.
Proof.
  assert (Forall op_distinct
            [BookSeats get_price 5 "asha" "9876543210" [(0, 0); (3, 3)] 7 7;
             CancelSeats 1 [(0, 0)]]) as Hops.
  { repeat constructor. by intros ?%elem_of_nil. }
  assert (ticket (db (run [BookSeats get_price 5 "asha" "9876543210"
                             [(0, 0); (3, 3)] 7 7;
                           CancelSeats 1 [(0, 0)]] init_state)) !! 1
          = Some (mkTicket 5 "asha" "9876543210" BOOKED 150)) as Ht.
  { vm_compute. reflexivity. }
  split; [exact Hops|]. split; [exact Ht|].
  symmetry. exact (totals_match_seats _ 1 _ Hops Ht).
Defined.

(** ** Prices along a run of the source's policy *)

Lemma all_priced_run_op o st :
  op_source o → all_priced (db st) → all_priced (db (run_op st o)).
Proof.
  intros Ho Hpriced.
  destruct o as [price_of show_id user_name user_mobile seats rows cols
                |ticket_id seats_to_cancel].
  - simpl in Ho. subst price_of.
    destruct (run_op_book_outcome get_price show_id user_name user_mobile seats
                rows cols st) as [r Hout].
    destruct Hout as [Hnil|s Hne Hin Hs|st' Hne Hall Hdup Hdb Hl Htr
                      |st' ticket_id total new_seats Hne Hall Hid Htotal Htk
                         Hrows Hcols Hnd Hfresh Hl Htr];
      [done|done|by rewrite Hdb|].
    intros ts. rewrite Hrows. intros [Hin|Hin]%elem_of_app; [by apply Hpriced|].
    by eapply new_seats_columns in Hin as (_ & _ & _ & Hp).
  - destruct (run_op_cancel_outcome ticket_id seats_to_cancel st) as [r Hout].
    destruct Hout as [st' Hno Hdb Hl Htr
                      |st' t refund Ht Hb Hrefund Hrows Htk Hl Htr];
      [by rewrite Hdb|].
    intros ts. rewrite Hrows. intros [_ Hin]%list_elem_of_filter.
    by apply Hpriced.
Qed.

Lemma all_priced_run ops st :
  Forall op_source ops → all_priced (db st) → all_priced (db (run ops st)).
Proof.
  revert st. induction ops as [|o ops IH]; intros st Hops Hpriced; [done|].
  apply Forall_cons in Hops as [Ho Hops].
  apply IH; [done|]. by apply all_priced_run_op.
Qed.

Lemma all_priced_init : all_priced (db init_state).
Proof. intros ts Hin. by apply elem_of_nil in Hin. Qed.

Lemma sum_prices_nonneg (l : list Z) :
  Forall (λ x, 0 ≤ x) l → 0 ≤ sum_prices l.
Proof.
  induction 1 as [|x l Hx Hl IH]; [done|]. rewrite sum_prices_cons. lia.
Qed.

(** With the pricing policy of the source, and provided no cancellation
    names a seat twice, no run leads to a ticket with a negative total. *)
Theorem totals_never_negative ops ticket_id t :
  Forall op_source ops →
  Forall op_distinct ops →
  ticket (db (run ops init_state)) !! ticket_id = Some t →
  0 ≤ t_total t.
Proof.
  intros Hsource Hdistinct Ht.
  rewrite (totals_run ops init_state Hdistinct store_inv_init same_show_init
             totals_init ticket_id t Ht).
  destruct (t_status t); [|done].
  apply sum_prices_nonneg, Forall_fmap, Forall_forall.
  intros ts [_ Hin]%list_elem_of_filter. simpl.
  rewrite (all_priced_run ops init_state Hsource all_priced_init ts Hin).
  unfold get_price. case_bool_decide; lia.
Qed.

Lemma totals_never_negative_witness :
  Forall op_source
    [BookSeats get_price 1 "asha" "9876543210" [(0, 0); (0, 1)] 7 7;
     CancelSeats 1 [(0, 0)]]
  ∧ Forall op_distinct
      [BookSeats get_price 1 "asha" "9876543210" [(0, 0); (0, 1)] 7 7;
       CancelSeats 1 [(0, 0)]]
  ∧ ticket (db (run [BookSeats get_price 1 "asha" "9876543210"
                       [(0, 0); (0, 1)] 7 7;
                     CancelSeats 1 [(0, 0)]] init_state)) !! 1
    = Some (mkTicket 1 "asha" "9876543210" BOOKED 100)
  ∧ 0 ≤ t_total (mkTicket 1 "asha" "9876543210" BOOKED 100).
Proof.
  assert (Forall op_source
            [BookSeats get_price 1 "asha" "9876543210" [(0, 0); (0, 1)] 7 7;
             CancelSeats 1 [(0, 0)]]) as Hsource.
  { repeat constructor. }
  assert (Forall op_distinct
            [BookSeats get_price 1 "asha" "9876543210" [(0, 0); (0, 1)] 7 7;
             CancelSeats 1 [(0, 0)]]) as Hdistinct.
  { repeat constructor. by intros ?%elem_of_nil. }
  assert (ticket (db (run [BookSeats get_price 1 "asha" "9876543210"
                             [(0, 0); (0, 1)] 7 7;
                           CancelSeats 1 [(0, 0)]] init_state)) !! 1
          = Some (mkTicket 1 "asha" "9876543210" BOOKED 100)) as Ht.
  { vm_compute. reflexivity. }
  split; [exact Hsource|]. split; [exact Hdistinct|]. split; [exact Ht|].
  exact (totals_never_negative _ 1 _ Hsource Hdistinct Ht).
Defined.


(** ** The seat layout that is shown *)

Lemma cell_build_seat_map d show_id rows cols row col :
  0 ≤ row < rows → 0 ≤ col < cols →
  cell (build_seat_map d show_id rows cols) row col
  = Some (bool_decide ((row, col) ∉ booked_seats d show_id)).
Proof.
  intros Hrow Hcol. unfold build_seat_map.
  rewrite cell_mark_loop by (done || apply well_shaped_replicate).
  rewrite cell_replicate by done.
  destruct (decide ((row, col) ∈ booked_seats d show_id)) as [Hin|Hout].
  - by rewrite bool_decide_eq_false_2 by tauto.
  - by rewrite bool_decide_eq_true_2.
Qed.

Lemma seat_mark_build_seat_map d show_id rows cols user_seats row col :
  0 ≤ row < rows → 0 ≤ col < cols →
  seat_mark (build_seat_map d show_id rows cols) user_seats row col
  = Some (if bool_decide ((row, col) ∈ default [] user_seats)
          then YourBooking
          else if is_seat_available d show_id row col then Available
               else Booked).
Proof.
  intros Hrow Hcol. unfold seat_mark.
  rewrite cell_build_seat_map, is_seat_available_booked_seats by done.
  destruct (decide ((row, col) ∈ default [] user_seats)) as [Hin|Hout].
  - rewrite !bool_decide_eq_true_2; [done..|]. split; [|done].
    intros Hnil. rewrite Hnil in Hin. by apply elem_of_nil in Hin.
  - rewrite !(bool_decide_eq_false_2 (_ ∈ default [] user_seats)) by done.
    rewrite bool_decide_eq_false_2 by tauto.
    by destruct (bool_decide _).
Qed.

(** [show_seat_map] prints [rows] rows of [cols] cells and never runs out
    of the grid; the cell of a seat is marked as the user's own booking when
    [user_seats] lists it, and otherwise as available or booked according to
    [is_seat_available]; the letter is the seat type of the row. *)
Theorem show_seat_map_marks d show_id rows cols user_seats row col :
  0 ≤ row < rows → 0 ≤ col < cols →
  length (show_seat_map d show_id rows cols user_seats) = Z.to_nat rows
  ∧ Forall (λ r, length r = Z.to_nat cols)
      (show_seat_map d show_id rows cols user_seats)
  ∧ show_seat_map d show_id rows cols user_seats !! Z.to_nat row
      ≫= (λ r, r !! Z.to_nat col)
    = Some (Some (if bool_decide ((row, col) ∈ default [] user_seats)
                  then YourBooking
                  else if is_seat_available d show_id row col then Available
                       else Booked),
            get_seat_type row).
Proof.
  intros Hrow Hcol. unfold show_seat_map. split_and!.
  - by rewrite length_fmap, length_seqZ.
  - apply Forall_fmap, Forall_forall. intros r _. simpl.
    by rewrite length_fmap, length_seqZ.
  - rewrite list_lookup_fmap, lookup_seqZ_lt by lia. simpl.
    rewrite list_lookup_fmap, lookup_seqZ_lt by lia. simpl.
    rewrite !Z2Nat.id by lia.
    by rewrite seat_mark_build_seat_map.
Qed.

Lemma show_seat_map_marks_witness :
  show_seat_map (db st_a1_d4) 5 7 7 (Some [(3, 3)]) !! Z.to_nat 3
    ≫= (λ r, r !! Z.to_nat 3)
  = Some (Some YourBooking, Premium)
  ∧ show_seat_map (db st_a1_d4) 5 7 7 None !! Z.to_nat 0
      ≫= (λ r, r !! Z.to_nat 0)
    = Some (Some Booked, Standard).
Proof.
  split.
  - destruct (show_seat_map_marks (db st_a1_d4) 5 7 7 (Some [(3, 3)]) 3 3)
      as (_ & _ & Hcell); [lia..|].
    rewrite Hcell. vm_compute. reflexivity.
  - destruct (show_seat_map_marks (db st_a1_d4) 5 7 7 None 0 0)
      as (_ & _ & Hcell); [lia..|].
    rewrite Hcell. vm_compute. reflexivity.
Defined.

(** ** The report of a show *)

(** In a store where every seat row is owned by a [BOOKED] ticket, the
    report aggregates all the seat rows of the show. *)
Lemma report_rows_store_inv d show_id :
  store_inv d →
  report_rows d show_id
  = filter (λ ts, ts_show_id ts = show_id) (ticket_seat d).
Proof.
  intros [Hown _]. unfold report_rows, join_ticket.
  revert Hown. generalize (ticket_seat d) as l.
  induction l as [|ts l IH]; intros Hown; [done|].
  cbn [omap list_omap].
  destruct (Hown ts) as (t & -> & Hb); [left|]. simpl.
  rewrite !filter_cons. simpl.
  destruct (decide (ts_show_id ts = show_id)) as [Hs|Hs].
  - rewrite decide_True by done. rewrite fmap_cons. simpl. f_equal.
    apply IH. intros ts' Hin. apply Hown. by right.
  - rewrite decide_False by tauto.
    apply IH. intros ts' Hin. apply Hown. by right.
Qed.

Lemma or_zero_id x : or_zero x = x.
Proof.
  unfold or_zero. case_bool_decide as Hx; [done|].
  destruct (decide (x = 0)) as [->|Hne]; [done|]. by destruct Hx.
Qed.

Lemma show_totals_rows d show_id :
  show_totals d show_id
  = (Z.of_nat (length (report_rows d show_id)),
     sum_prices (ts_price <$> report_rows d show_id)).
Proof.
  unfold show_totals. cbn [fst snd]. rewrite !or_zero_id. f_equal.
  unfold sql_sum. by destruct (ts_price <$> report_rows d show_id).
Qed.

Lemma length_filter_split {A} (P : A → Prop) `{∀ x, Decision (P x)}
    (l : list A) :
  length l = (length (filter P l) + length (filter (λ x, ¬ P x) l))%nat.
Proof.
  induction l as [|x l IH]; [done|].
  destruct (decide (P x)) as [HP|HP].
  - rewrite (filter_cons_True P) by done.
    rewrite (filter_cons_False (λ x, ¬ P x)) by tauto. simpl. lia.
  - rewrite (filter_cons_False P) by done.
    rewrite (filter_cons_True (λ x, ¬ P x)) by done. simpl. lia.
Qed.

(** The seat-type breakdown of [show_report] adds up to its headline: the
    counts of the listed seat types sum to [booked_seats], their revenues
    to [revenue]; every listed seat type has at least one seat; and the
    breakdown is empty ("No bookings") exactly when [booked_seats] is 0. *)
Theorem seat_breakdown_adds_up d show_id :
  sum_prices ((λ g, g.1.2) <$> seat_breakdown d show_id)
  = (show_totals d show_id).1
  ∧ sum_prices ((λ g, g.2) <$> seat_breakdown d show_id)
    = (show_totals d show_id).2
  ∧ Forall (λ g, 0 < g.1.2) (seat_breakdown d show_id)
  ∧ (seat_breakdown d show_id = [] ↔ (show_totals d show_id).1 = 0).
Proof.
  rewrite show_totals_rows. cbn [fst snd]. unfold seat_breakdown.
  set (rows := report_rows d show_id).
  pose proof (length_filter_split
                (λ ts, sql_seat_type (ts_row ts) = Premium) rows) as Hlen.
  pose proof (sum_prices_filter_split ts_price
                (λ ts, sql_seat_type (ts_row ts) = Premium) rows) as Hsum.
  rewrite (list_filter_iff (λ ts, ¬ sql_seat_type (ts_row ts) = Premium)
             (λ ts, sql_seat_type (ts_row ts) = Standard)) in Hlen, Hsum
    by (intros ts; destruct (sql_seat_type (ts_row ts)); split; done).
  cbn [omap list_omap].
  destruct (filter (λ ts, sql_seat_type (ts_row ts) = Premium) rows)
    as [|p ps];
    destruct (filter (λ ts, sql_seat_type (ts_row ts) = Standard) rows)
      as [|q qs];
    simpl in *; unfold sum_prices in *; simpl in *;
    (split_and!; [lia|lia|repeat constructor; simpl; lia|]);
    (split; [done || lia|done || lia]).
Qed.

(** ** The report and the seat layout count the same seats *)

Lemma join_rows_cells {A} (h : Z → Z → A) (rs cs : list Z) :
  mjoin ((λ row, (λ col, h row col) <$> cs) <$> rs)
  = (λ rc, h rc.1 rc.2)
      <$> mjoin ((λ row, (λ col, (row, col)) <$> cs) <$> rs).
Proof.
  induction rs as [|r rs IH]; [done|].
  rewrite !fmap_cons. simpl. rewrite fmap_app, IH. f_equal.
  by rewrite <-list_fmap_compose.
Qed.

Lemma elem_of_grid_cells rows cols rc :
  rc ∈ grid_cells rows cols ↔ 0 ≤ rc.1 < rows ∧ 0 ≤ rc.2 < cols.
Proof.
  unfold grid_cells. rewrite list_elem_of_join. split.
  - intros (l & Hrc & Hl).
    apply list_elem_of_fmap in Hl as (row & -> & Hrow).
    apply list_elem_of_fmap in Hrc as (col & -> & Hcol).
    apply elem_of_seqZ in Hrow, Hcol. simpl. lia.
  - intros [Hrow Hcol]. destruct rc as [row col]. simpl in *.
    exists ((λ col, (row, col)) <$> seqZ 0 cols). split.
    + apply list_elem_of_fmap. exists col. split; [done|].
      apply elem_of_seqZ. lia.
    + apply list_elem_of_fmap. exists row. split; [done|].
      apply elem_of_seqZ. lia.
Qed.

Lemma NoDup_rows_cells (rs cs : list Z) :
  NoDup rs → NoDup cs →
  NoDup (mjoin ((λ row, (λ col, (row, col)) <$> cs) <$> rs)).
Proof.
  intros Hrs Hcs. induction Hrs as [|r rs Hr Hrs IH]; [constructor|].
  rewrite fmap_cons. simpl. apply NoDup_app. split_and!.
  - apply NoDup_fmap_2_strong; [|done]. by intros ? ? _ _ [= ->].
  - intros rc (col & -> & _)%list_elem_of_fmap.
    intros (l & Hrc & Hl)%list_elem_of_join.
    apply list_elem_of_fmap in Hl as (row & -> & Hrow).
    apply list_elem_of_fmap in Hrc as (col' & [= -> ->] & _). done.
  - done.
Qed.

Lemma length_filter_fmap {A B} (f : A → B) (P : B → Prop)
    `{∀ y, Decision (P y)} (l : list A) :
  length (filter P (f <$> l)) = length (filter (λ x, P (f x)) l).
Proof.
  induction l as [|x l IH]; [done|].
  rewrite fmap_cons, !filter_cons. simpl.
  destruct (decide (P (f x))); simpl; by rewrite IH.
Qed.

Lemma length_report_rows d show_id :
  length (report_rows d show_id) = length (booked_seats d show_id).
Proof.
  unfold report_rows, booked_seats. rewrite !length_fmap. f_equal.
  apply list_filter_iff. intros p. tauto.
Qed.

(** After a run of calls that respect the grid, the number of seats the
    layout of a show marks as booked is the [booked_seats] of its report. *)
Theorem report_counts_booked_cells dims ops show_id :
  Forall (op_in_bounds dims) ops →
  Z.of_nat
    (length
       (filter (λ c, c.1 = Some Booked)
          (mjoin (show_seat_map (db (run ops init_state)) show_id
                    (dims show_id).1 (dims show_id).2 None))))
  = (show_totals (db (run ops init_state)) show_id).1.
Proof.
  intros Hops. set (d := db (run ops init_state)).
  rewrite show_totals_rows. cbn [fst]. f_equal.
  rewrite length_report_rows.
  assert (NoDup (booked_seats d show_id)) as Hnd.
  { apply booked_seats_NoDup.
    apply (store_inv_run ops init_state store_inv_init). }
  assert (∀ rc, rc ∈ booked_seats d show_id
                → rc ∈ grid_cells (dims show_id).1 (dims show_id).2) as Hin.
  { intros rc (ts & Hts & <- & <-)%booked_seats_elem.
    apply elem_of_grid_cells.
    apply (in_grid_run dims ops init_state); [done| |done].
    intros ts' Hin'. by apply elem_of_nil in Hin'. }
  unfold show_seat_map.
  rewrite (join_rows_cells
             (λ row col,
                (seat_mark
                   (build_seat_map d show_id (dims show_id).1 (dims show_id).2)
                   None row col, get_seat_type row))).
  fold (grid_cells (dims show_id).1 (dims show_id).2).
  rewrite length_filter_fmap.
  apply Permutation_length, NoDup_Permutation; [|done|].
  - apply NoDup_filter, NoDup_rows_cells; apply NoDup_seqZ.
  - intros rc. rewrite list_elem_of_filter. cbn [fst snd]. split.
    + intros [Hmark Hcell]. apply elem_of_grid_cells in Hcell as [Hr Hc].
      rewrite seat_mark_build_seat_map in Hmark by done.
      rewrite bool_decide_eq_false_2 in Hmark by by intros ?%elem_of_nil.
      destruct (is_seat_available d show_id rc.1 rc.2) eqn:Hav; [done|].
      destruct (decide (rc ∈ booked_seats d show_id)) as [|Hout]; [done|].
      destruct rc as [row col]. apply is_seat_available_true in Hout.
      simpl in *. congruence.
    + intros Hrc. split; [|by apply Hin].
      pose proof (Hin rc Hrc) as [Hr Hc]%elem_of_grid_cells.
      rewrite seat_mark_build_seat_map by done.
      rewrite bool_decide_eq_false_2 by by intros ?%elem_of_nil.
      destruct (is_seat_available d show_id rc.1 rc.2) eqn:Hav; [|done].
      apply is_seat_available_true in Hav. by destruct rc.
Qed.

Lemma report_counts_booked_cells_witness :
  Forall (op_in_bounds (λ _, (7, 7)))
    [BookSeats get_price 5 "asha" "9876543210" [(0, 0); (3, 3)] 7 7]
  ∧ Z.of_nat
      (length
         (filter (λ c, c.1 = Some Booked)
            (mjoin (show_seat_map
                      (db (run [BookSeats get_price 5 "asha" "9876543210"
                                  [(0, 0); (3, 3)] 7 7] init_state))
                      5 7 7 None))))
    = 2.
Proof.
  assert (Forall (op_in_bounds (λ _, (7, 7)))
            [BookSeats get_price 5 "asha" "9876543210" [(0, 0); (3, 3)] 7 7])
    as Hops.
  { repeat constructor; simpl; lia. }
  split; [exact Hops|].
  etransitivity;
    [exact (report_counts_booked_cells (λ _, (7, 7)) _ 5 Hops)|].
  vm_compute. reflexivity.
Defined.

(** ** Bookings and cancellations in the report *)

Lemma filter_ext_in {A} (P Q : A → Prop) `{∀ x, Decision (P x)}
    `{∀ x, Decision (Q x)} (l : list A) :
  (∀ x, x ∈ l → P x ↔ Q x) → filter P l = filter Q l.
Proof.
  induction l as [|x l IH]; intros Hext; [done|].
  rewrite !filter_cons.
  rewrite IH by (intros y Hy; apply Hext; by right).
  destruct (decide (P x)) as [HP|HP].
  - rewrite decide_True; [done|]. apply Hext; [left|done].
  - rewrite decide_False; [done|]. intros HQ. apply HP, Hext; [left|done].
Qed.

(** After any run, a call of [book_seats] that returns raises the
    [booked_seats] of the report of its show by the number of seats booked
    and its [revenue] by the returned total, and leaves the report of every
    other show as it was. *)
Theorem booking_adds_to_report ops show_id user_name user_mobile seats rows
    cols st' ticket_id total confirmed other :
  book_seats show_id user_name user_mobile seats rows cols
    (run ops init_state)
  = (st', Ok (ticket_id, total, confirmed)) →
  show_totals (db st') show_id
  = ((show_totals (db (run ops init_state)) show_id).1
     + Z.of_nat (length seats),
     (show_totals (db (run ops init_state)) show_id).2 + total)
  ∧ (other ≠ show_id →
     show_totals (db st') other
     = show_totals (db (run ops init_state)) other).
Proof.
  intros Hcall. set (st := run ops init_state) in *.
  assert (store_inv (db st)) as Hinv by apply store_inv_run, store_inv_init.
  pose proof (book_seats_with_outcome get_price show_id user_name user_mobile
                seats rows cols st) as Hout.
  unfold book_seats in Hcall. rewrite Hcall in Hout. cbn [fst snd] in Hout.
  assert (store_inv (db st')) as Hinv' by by eapply store_inv_book.
  inversion Hout as [| | |st'' tid total' new_seats Hne Hall Hid Htotal Htk
                           Hrows Hcols Hnd Hfresh Hl Htr]; subst.
  rewrite !show_totals_rows, !report_rows_store_inv by done.
  rewrite Hrows, !filter_app, !fmap_app, !length_app, !sum_prices_app.
  split.
  - rewrite (filter_all _ new_seats).
    + rewrite (new_seats_prices get_price _ show_id seats new_seats Hcols).
      cbn [fst snd]. f_equal.
      apply (f_equal length) in Hcols. rewrite !length_fmap in Hcols. lia.
    + intros ts Hin. by eapply new_seats_columns in Hin as (_ & -> & _).
  - intros Hother. rewrite (filter_none _ new_seats).
    + simpl. f_equal; lia.
    + intros ts Hin Hs.
      eapply new_seats_columns in Hin as (_ & Hshow & _); [|done].
      congruence.
Qed.

Lemma booking_adds_to_report_witness :
  book_seats 5 "asha" "9876543210" [(0, 0); (3, 3)] 7 7 (run [] init_state)
  = (st_a1_d4, Ok (1, 250, [(0, 0, 100); (3, 3, 150)]))
  ∧ show_totals (db st_a1_d4) 5 = (2, 250)
  ∧ 6 ≠ 5
  ∧ show_totals (db st_a1_d4) 6 = show_totals (db (run [] init_state)) 6.
Proof.
  assert (6 ≠ 5) as Hne by lia.
  destruct (booking_adds_to_report [] 5 "asha" "9876543210" [(0, 0); (3, 3)]
              7 7 st_a1_d4 1 250 _ 6 ex_book_a1_d4) as [Hshow Hother].
  split; [exact ex_book_a1_d4|]. split; [|split; [exact Hne|exact (Hother Hne)]].
  etransitivity; [exact Hshow|]. vm_compute. reflexivity.
Defined.

(** After any run, a call of [cancel_seats] that returns and names no seat
    twice lowers the [revenue] of the report of the ticket's show by
    exactly the refund, and leaves the report of every other show as it
    was. *)
Theorem cancellation_lowers_report ops ticket_id seats_to_cancel st' refund t
    other :
  cancel_seats ticket_id seats_to_cancel (run ops init_state)
  = (st', Ok refund) →
  NoDup seats_to_cancel →
  ticket (db (run ops init_state)) !! ticket_id = Some t →
  (show_totals (db st') (t_show_id t)).2
  = (show_totals (db (run ops init_state)) (t_show_id t)).2 - refund
  ∧ (other ≠ t_show_id t →
     show_totals (db st') other
     = show_totals (db (run ops init_state)) other).
Proof.
  intros Hcall Hnd Ht. set (st := run ops init_state) in *.
  destruct (owners_run ops init_state store_inv_init same_show_init)
    as [Hinv Hsame]. fold st in Hinv, Hsame.
  pose proof (cancel_seats_outcome ticket_id seats_to_cancel st) as Hout.
  rewrite Hcall in Hout. cbn [fst snd] in Hout.
  assert (store_inv (db st')) as Hinv' by by eapply store_inv_cancel.
  inversion Hout as [|st'' t' refund' Ht' Hb Hrefund Hrows Htk Hl Htr]; subst.
  rewrite Ht in Ht'. injection Ht' as <-.
  assert (∀ show_id,
            report_rows (db st') show_id
            = filter (λ ts, ¬ cancelled_row ticket_id seats_to_cancel ts)
                (report_rows (db st) show_id)) as Hreport.
  { intros show_id. rewrite !report_rows_store_inv by done.
    rewrite Hrows, !list_filter_filter. apply list_filter_iff.
    intros ts. tauto. }
  rewrite !show_totals_rows, !Hreport. cbn [fst snd]. split.
  - rewrite (sum_prices_filter_split ts_price
               (cancelled_row ticket_id seats_to_cancel)
               (report_rows (db st) (t_show_id t))).
    rewrite refund_distinct
      by (done || by apply ticket_positions_NoDup).
    replace (filter (cancelled_row ticket_id seats_to_cancel)
               (report_rows (db st) (t_show_id t)))
      with (filter (λ ts, seat_pos ts ∈ seats_to_cancel)
              (seats_of_ticket (db st) ticket_id)); [lia|].
    rewrite report_rows_store_inv by done. unfold seats_of_ticket.
    rewrite !list_filter_filter. apply filter_ext_in.
    intros ts Hin. unfold cancelled_row, seat_pos. split; [|tauto].
    intros [Hpos Hid]. split_and!; [done|done|].
    apply Hsame; [done|]. by rewrite Hid.
  - intros Hother. rewrite filter_all; [done|].
    intros ts Hin [Hid _]. rewrite report_rows_store_inv in Hin by done.
    apply list_elem_of_filter in Hin as [Hshow Hin].
    apply Hother. rewrite <-Hshow.
    apply Hsame; [done|]. by rewrite Hid.
Qed.

Lemma cancellation_lowers_report_witness :
  cancel_seats 1 [(0, 0)]
    (run [BookSeats get_price 5 "asha" "9876543210" [(0, 0); (3, 3)] 7 7]
       init_state)
  = (st_d4, Ok 100)
  ∧ NoDup [(0, 0)]
  ∧ (show_totals (db st_d4) 5).2 = 250 - 100.
Proof.
  assert (cancel_seats 1 [(0, 0)]
            (run [BookSeats get_price 5 "asha" "9876543210" [(0, 0); (3, 3)]
                    7 7] init_state)
          = (st_d4, Ok 100)) as Hcall.
  { vm_compute. reflexivity. }
  assert (NoDup [(0, 0)]) as Hnd by apply NoDup_singleton.
  assert (ticket (db (run [BookSeats get_price 5 "asha" "9876543210"
                             [(0, 0); (3, 3)] 7 7] init_state)) !! 1
          = Some (mkTicket 5 "asha" "9876543210" BOOKED 250)) as Ht.
  { vm_compute. reflexivity. }
  split; [exact Hcall|]. split; [exact Hnd|].
  destruct (cancellation_lowers_report _ 1 [(0, 0)] st_d4 100 _ 5 Hcall Hnd Ht)
    as [Hshow _].
  etransitivity; [exact Hshow|]. vm_compute. reflexivity.
Defined.

(** ** Revenue under the two tiers *)

Lemma sum_prices_constant {A} (f : A → Z) (c : Z) (l : list A) :
  (∀ x, x ∈ l → f x = c) → sum_prices (f <$> l) = Z.of_nat (length l) * c.
Proof.
  induction l as [|x l IH]; intros Hall; [done|].
  rewrite fmap_cons, sum_prices_cons, IH by (intros y Hy; apply Hall; by right).
  rewrite (Hall x) by left. simpl length. lia.
Qed.

Lemma report_rows_elem d show_id ts :
  ts ∈ report_rows d show_id → ts ∈ ticket_seat d.
Proof.
  unfold report_rows. intros (p & -> & Hp)%list_elem_of_fmap.
  apply list_elem_of_filter in Hp as [_ Hp].
  eapply elem_of_sublist; [|apply join_ticket_sublist].
  by apply list_elem_of_fmap_2.
Qed.

(** After a run in which every booking was priced by [get_price], each line
    of the seat-type breakdown of a report shows as revenue its number of
    seats times the price of its tier: 100 for Standard, 150 for Premium. *)
Theorem breakdown_follows_tiers ops show_id seat_type count type_revenue :
  Forall op_source ops →
  (seat_type, count, type_revenue)
  ∈ seat_breakdown (db (run ops init_state)) show_id →
  type_revenue = count * tier_price seat_type.
Proof.
  intros Hops Hin. set (d := db (run ops init_state)) in *.
  pose proof (all_priced_run ops init_state Hops all_priced_init) as Hpriced.
  fold d in Hpriced.
  apply list_elem_of_omap in Hin as (ty & _ & Hentry).
  cbv beta zeta in Hentry.
  destruct (filter (λ ts, sql_seat_type (ts_row ts) = ty)
              (report_rows d show_id)) as [|x xs] eqn:Hgroup; [done|].
  rewrite <-Hgroup in Hentry. clear Hgroup. injection Hentry as <- <- <-.
  apply sum_prices_constant.
  intros ts [Hty Hts]%list_elem_of_filter.
  rewrite (Hpriced ts) by by eapply report_rows_elem.
  rewrite <-Hty. unfold get_price, sql_seat_type.
  by case_bool_decide.
Qed.

Lemma breakdown_follows_tiers_witness :
  Forall op_source
    [BookSeats get_price 5 "asha" "9876543210" [(0, 0); (3, 3); (4, 4)] 7 7]
  ∧ (Premium, 2, 300)
    ∈ seat_breakdown
        (db (run [BookSeats get_price 5 "asha" "9876543210"
                    [(0, 0); (3, 3); (4, 4)] 7 7] init_state)) 5
  ∧ 300 = 2 * tier_price Premium.
Proof.
  assert (Forall op_source
            [BookSeats get_price 5 "asha" "9876543210"
               [(0, 0); (3, 3); (4, 4)] 7 7]) as Hops.
  { repeat constructor. }
  assert ((Premium, 2, 300)
          ∈ seat_breakdown
              (db (run [BookSeats get_price 5 "asha" "9876543210"
                          [(0, 0); (3, 3); (4, 4)] 7 7] init_state)) 5)
    as Hin.
  { vm_compute. left. }
  split; [exact Hops|]. split; [exact Hin|].
  exact (breakdown_follows_tiers _ 5 Premium 2 300 Hops Hin).
Defined.

(** ** A booked ticket has seats *)

Lemma booked_own_run_op o st :
  (∀ ticket_id t, ticket (db st) !! ticket_id = Some t → t_status t = BOOKED →
                  seats_of_ticket (db st) ticket_id ≠ []) →
  ∀ ticket_id t, ticket (db (run_op st o)) !! ticket_id = Some t →
                 t_status t = BOOKED →
                 seats_of_ticket (db (run_op st o)) ticket_id ≠ [].
Proof.
  intros Hown.
  destruct o as [price_of show_id user_name user_mobile seats rows cols
                |ticket_id' seats_to_cancel].
  - destruct (run_op_book_outcome price_of show_id user_name user_mobile seats
                rows cols st) as [r Hout].
    destruct Hout as [Hnil|s Hne Hin Hs|st' Hne Hall Hdup Hdb Hl Htr
                      |st' tid total new_seats Hne Hall Hid Htotal Htk
                         Hrows Hcols Hnd Hfresh Hl Htr];
      [done|done|by rewrite Hdb|].
    intros ticket_id t. rewrite Htk.
    destruct (decide (tid = ticket_id)) as [<-|Hother].
    + intros _ _ Hnone. destruct new_seats as [|ts new_seats].
      * apply (f_equal length) in Hcols. rewrite !length_fmap in Hcols.
        by destruct seats.
      * unfold seats_of_ticket in Hnone.
        apply (filter_nil_not_elem_of _ _ ts Hnone).
        -- destruct (new_seats_columns price_of tid show_id seats
                       (ts :: new_seats) ts Hcols) as (Hid' & _); [left|done].
        -- rewrite Hrows. apply elem_of_app. right. left.
    + rewrite lookup_insert_ne by done.
      rewrite (seats_of_ticket_other price_of tid show_id seats new_seats
                 (db st) (db st')) by done.
      apply Hown.
  - destruct (run_op_cancel_outcome ticket_id' seats_to_cancel st)
      as [r Hout].
    destruct Hout as [st' Hno Hdb Hl Htr
                      |st' t0 refund Ht0 Hb Hrefund Hrows Htk Hl Htr];
      [by rewrite Hdb|].
    intros ticket_id t. rewrite Htk.
    destruct (decide (ticket_id' = ticket_id)) as [<-|Hother].
    + rewrite lookup_insert_eq. intros [= <-].
      case_decide as Hleft; [done|]. done.
    + rewrite lookup_insert_ne by done. intros Ht Hbooked.
      replace (seats_of_ticket (db st') ticket_id)
        with (seats_of_ticket (db st) ticket_id); [by eapply Hown|].
      unfold seats_of_ticket. rewrite Hrows, list_filter_filter.
      apply list_filter_iff. intros ts. unfold cancelled_row.
      split; [|tauto]. intros Hid. split; [done|]. intros [Hid' _].
      congruence.
Qed.

(** In every state that a run leads to from the empty store, a ticket whose
    status is [BOOKED] owns at least one seat row. *)
Theorem booked_tickets_own_seats ops ticket_id t :
  ticket (db (run ops init_state)) !! ticket_id = Some t →
  t_status t = BOOKED →
  seats_of_ticket (db (run ops init_state)) ticket_id ≠ [].
Proof.
  assert (∀ ops st,
            (∀ ticket_id t, ticket (db st) !! ticket_id = Some t →
                            t_status t = BOOKED →
                            seats_of_ticket (db st) ticket_id ≠ []) →
            ∀ ticket_id t, ticket (db (run ops st)) !! ticket_id = Some t →
                           t_status t = BOOKED →
                           seats_of_ticket (db (run ops st)) ticket_id ≠ [])
    as Hrun.
  { clear. induction ops as [|o ops IH]; intros st Hown; [done|].
    apply IH. by apply booked_own_run_op. }
  apply Hrun. intros other t' Ht'. simpl in Ht'.
  by rewrite lookup_empty in Ht'.
Qed.

Lemma booked_tickets_own_seats_witness :
  ticket (db (run [BookSeats get_price 5 "asha" "9876543210"
                     [(0, 0); (3, 3)] 7 7;
                   CancelSeats 1 [(0, 0)]] init_state)) !! 1
  = Some (mkTicket 5 "asha" "9876543210" BOOKED 150)
  ∧ seats_of_ticket
      (db (run [BookSeats get_price 5 "asha" "9876543210" [(0, 0); (3, 3)]
                  7 7;
                CancelSeats 1 [(0, 0)]] init_state)) 1
    ≠ [].
Proof.
  assert (ticket (db (run [BookSeats get_price 5 "asha" "9876543210"
                             [(0, 0); (3, 3)] 7 7;
                           CancelSeats 1 [(0, 0)]] init_state)) !! 1
          = Some (mkTicket 5 "asha" "9876543210" BOOKED 150)) as Ht.
  { vm_compute. reflexivity. }
  split; [exact Ht|].
  exact (booked_tickets_own_seats _ 1 _ Ht eq_refl).
Defined.

(** ** The registry of locks *)

Lemma locks_run_op o st :
  locks st ⊆ locks (run_op st o)
  ∧ ((∀ show_id, Acquire show_id ∈ trace st → show_id ∈ locks st) →
     ∀ show_id, Acquire show_id ∈ trace (run_op st o) →
                show_id ∈ locks (run_op st o)).
Proof.
  destruct o as [price_of show_id user_name user_mobile seats rows cols
                |ticket_id seats_to_cancel].
  - destruct (run_op_book_outcome price_of show_id user_name user_mobile seats
                rows cols st) as [r Hout].
    destruct Hout as [Hnil|s Hne Hin Hs|st' Hne Hall Hdup Hdb Hl Htr
                      |st' tid total new_seats Hne Hall Hid Htotal Htk
                         Hrows Hcols Hnd Hfresh Hl Htr];
      [done|done|..]; rewrite Hl, Htr;
      (split; [apply union_subseteq_r|]);
      intros Hreg sid; rewrite elem_of_app, !elem_of_cons, elem_of_nil;
      rewrite elem_of_union, elem_of_singleton;
      (intros [Hold|[[= ->]|[|[|[|[]]]]]]; [right; by apply Hreg|by left|done..]).
  - destruct (run_op_cancel_outcome ticket_id seats_to_cancel st) as [r Hout].
    destruct Hout as [st' Hno Hdb Hl Htr
                      |st' t refund Ht Hb Hrefund Hrows Htk Hl Htr];
      rewrite Hl, Htr; (split; [done|]);
      intros Hreg sid; rewrite elem_of_app, !elem_of_cons, elem_of_nil;
      (intros [Hold|[|[|[]]]]; [by apply Hreg|done..]).
Qed.

(** No call removes a lock from the registry of [get_lock], and after any
    run from the start every lock that was ever acquired is in it. *)
Theorem locks_are_kept ops st show_id :
  (show_id ∈ locks st → show_id ∈ locks (run ops st))
  ∧ (Acquire show_id ∈ trace (run ops init_state) →
     show_id ∈ locks (run ops init_state)).
Proof.
  split.
  - revert st. induction ops as [|o ops IH]; intros st Hin; [done|].
    apply IH. by apply (proj1 (locks_run_op o st)).
  - assert (∀ ops st,
              (∀ sid, Acquire sid ∈ trace st → sid ∈ locks st) →
              ∀ sid, Acquire sid ∈ trace (run ops st) →
                     sid ∈ locks (run ops st)) as Hrun.
    { clear. induction ops as [|o ops IH]; intros st Hreg; [done|].
      apply IH. by apply locks_run_op. }
    apply Hrun. intros sid Hin. by apply elem_of_nil in Hin.
Qed.

Lemma locks_are_kept_witness :
  5 ∈ locks st_a1_d4
  ∧ 5 ∈ locks (run [CancelSeats 1 [(0, 0)];
                    BookSeats get_price 6 "ravi" "9123456780" [(0, 0)] 7 7]
                 st_a1_d4).
Proof.
  assert (5 ∈ locks st_a1_d4) as Hin.
  { change (5 ∈ ({[5]} : gset Z)). by apply elem_of_singleton. }
  split; [exact Hin|].
  exact (proj1 (locks_are_kept _ st_a1_d4 5) Hin).
Defined.

(** ** The re-check inside the transaction *)


(** ** Seats taken from the prompts *)

Lemma parse_seat_Some isalpha int rows cols seat_str seat :
  parse_seat isalpha int rows cols seat_str = Some seat →
  0 ≤ seat.1 < rows ∧ 0 ≤ seat.2 < cols.
Proof.
  unfold parse_seat.
  destruct seat_str as [|row_char [|second rest]]; [done..|].
  destruct (isalpha row_char); [|done]. cbn [negb orb].
  case_bool_decide as Hlow; [done|]. case_bool_decide as Hhigh; [done|].
  cbn [orb]. destruct (int (second :: rest)) as [n|]; [|done].
  case_bool_decide as Hneg; [done|]. case_bool_decide as Hbig; [done|].
  cbn [orb]. intros [= <-]. simpl. lia.
Qed.

Lemma parse_seats_spec strip upper isalpha int rows cols seat_strings seats
    seats' :
  parse_seats strip upper isalpha int rows cols seat_strings seats
  = (true, seats') →
  ∃ new_seats,
    seats' = seats ++ new_seats
    ∧ length new_seats = length seat_strings
    ∧ Forall (λ s, 0 ≤ s.1 < rows ∧ 0 ≤ s.2 < cols) new_seats.
Proof.
  revert seats. induction seat_strings as [|seat_str rest IH]; intros seats.
  - intros [= <-]. exists []. by rewrite app_nil_r.
  - cbn [parse_seats].
    destruct (parse_seat isalpha int rows cols (upper (strip seat_str)))
      as [seat|] eqn:Hseat; [|done].
    intros (new_seats & -> & Hlen & Hall)%IH.
    exists (seat :: new_seats). rewrite <-app_assoc. split_and!.
    + done.
    + simpl. by rewrite Hlen.
    + constructor; [|done]. by eapply parse_seat_Some.
Qed.

Lemma parse_cancel_seats_spec strip isalpha int rows cols seats seat_strings
    cancel_seats cancel_seats' :
  parse_cancel_seats strip isalpha int rows cols seats seat_strings
    cancel_seats
  = (true, cancel_seats') →
  ∃ new_seats,
    cancel_seats' = cancel_seats ++ new_seats
    ∧ length new_seats = length seat_strings
    ∧ Forall (λ s, s ∈ seats ∧ 0 ≤ s.1 < rows ∧ 0 ≤ s.2 < cols) new_seats.
Proof.
  revert cancel_seats.
  induction seat_strings as [|seat_str rest IH]; intros cancel_seats.
  - intros [= <-]. exists []. by rewrite app_nil_r.
  - cbn [parse_cancel_seats].
    destruct (parse_seat isalpha int rows cols (strip seat_str))
      as [seat|] eqn:Hseat; [|done].
    case_bool_decide as Hmember; [done|].
    intros (new_seats & -> & Hlen & Hall)%IH.
    exists (seat :: new_seats). rewrite <-app_assoc. split_and!.
    + done.
    + simpl. by rewrite Hlen.
    + constructor; [|done]. split.
      * exact Hmember.
      * by eapply parse_seat_Some.
Qed.

(** Whatever the string built-ins return, a round of the seat prompt of
    [book_tickets] that goes on to book has parsed one seat per seat string,
    at least one, every one of them inside the grid of [rows] by [cols]
    and available in the store it looked at. *)
Theorem select_seats_in_grid strip upper isalpha int d show_id rows cols
    seat_strings seats :
  select_seats strip upper isalpha int d show_id rows cols seat_strings
  = Some seats →
  seats ≠ []
  ∧ length seats = length seat_strings
  ∧ Forall (λ s, 0 ≤ s.1 < rows ∧ 0 ≤ s.2 < cols) seats
  ∧ Forall (λ s, is_seat_available d show_id s.1 s.2 = true) seats.
Proof.
  unfold select_seats.
  destruct (parse_seats strip upper isalpha int rows cols seat_strings [])
    as [valid seats'] eqn:Hparse.
  destruct valid; [|done]. cbn [andb].
  case_bool_decide as Hne; [|done].
  case_bool_decide as Htaken; [done|]. intros [= <-].
  apply parse_seats_spec in Hparse as (new_seats & -> & Hlen & Hall).
  rewrite app_nil_l in *. split_and!; [done..|].
  apply Forall_forall. intros s Hs.
  destruct (is_seat_available d show_id s.1 s.2) eqn:Hav; [done|].
  exfalso. by apply (filter_nil_not_elem_of _ _ s Htaken).
Qed.

(** Whatever the string built-ins return, a round of the seat prompt of
    [cancel_tickets] that goes on to cancel has parsed one seat per seat
    string, at least one, every one of them a seat of the ticket (a member
    of [seats]) inside the grid. *)
Theorem select_cancel_seats_of_ticket strip isalpha int rows cols seats
    seat_strings cancel_seats :
  select_cancel_seats strip isalpha int rows cols seats seat_strings
  = Some cancel_seats →
  cancel_seats ≠ []
  ∧ length cancel_seats = length seat_strings
  ∧ Forall (λ s, s ∈ seats ∧ 0 ≤ s.1 < rows ∧ 0 ≤ s.2 < cols) cancel_seats.
Proof.
  unfold select_cancel_seats.
  destruct (parse_cancel_seats strip isalpha int rows cols seats seat_strings
              []) as [valid cancel_seats'] eqn:Hparse.
  destruct valid; [|done]. cbn [andb].
  case_bool_decide as Hne; [|done]. intros [= <-].
  apply parse_cancel_seats_spec in Hparse as (new_seats & -> & Hlen & Hall).
  by rewrite app_nil_l in *.
Qed.

(** A stand-in for [int] on the strings "1" to "7", for the examples. *)
Lemma select_seats_in_grid_witness :
  select_seats id id (λ _, true)
    (λ l, match l with [c] => Some (c - 48) | _ => None end)
    (db st_a1_d4) 5 7 7 [[66; 50]; [71; 55]]
  = Some [(1, 1); (6, 6)]
  ∧ Forall (λ s, 0 ≤ s.1 < 7 ∧ 0 ≤ s.2 < 7) [(1, 1); (6, 6)].
Proof.
  assert (select_seats id id (λ _, true)
            (λ l, match l with [c] => Some (c - 48) | _ => None end)
            (db st_a1_d4) 5 7 7 [[66; 50]; [71; 55]]
          = Some [(1, 1); (6, 6)]) as Hsel.
  { vm_compute. reflexivity. }
  split; [exact Hsel|].
  destruct (select_seats_in_grid _ _ _ _ _ _ _ _ _ _ Hsel)
    as (_ & _ & Hgrid & _).
  exact Hgrid.
Defined.

Lemma select_cancel_seats_of_ticket_witness :
  select_cancel_seats id (λ _, true)
    (λ l, match l with [c] => Some (c - 48) | _ => None end)
    7 7 [(0, 0); (3, 3)] [[68; 52]; [68; 52]]
  = Some [(3, 3); (3, 3)]
  ∧ Forall (λ s, s ∈ [(0, 0); (3, 3)] ∧ 0 ≤ s.1 < 7 ∧ 0 ≤ s.2 < 7)
      [(3, 3); (3, 3)].
Proof.
  assert (select_cancel_seats id (λ _, true)
            (λ l, match l with [c] => Some (c - 48) | _ => None end)
            7 7 [(0, 0); (3, 3)] [[68; 52]; [68; 52]]
          = Some [(3, 3); (3, 3)]) as Hsel.
  { vm_compute. reflexivity. }
  split; [exact Hsel|].
  destruct (select_cancel_seats_of_ticket _ _ _ _ _ _ _ _ Hsel)
    as (_ & _ & Hmembers).
  exact Hmembers.
Defined.

(** ** When a booking goes through *)



(** ** The refund that is quoted and the refund that is made *)

(** After a run in which every booking was priced by [get_price], the
    refund [cancel_tickets] quotes for seats of a [BOOKED] ticket (the sum
    of [get_price] over their rows) is the refund [cancel_seats] returns
    for them, a seat named twice being counted twice by both. *)
Theorem quoted_refund_is_paid ops ticket_id t seats_to_cancel :
  Forall op_source ops →
  ticket (db (run ops init_state)) !! ticket_id = Some t →
  t_status t = BOOKED →
  Forall (λ s, s ∈ get_seats_for_ticket (db (run ops init_state)) ticket_id)
    seats_to_cancel →
  ∃ st',
    cancel_seats ticket_id seats_to_cancel (run ops init_state)
    = (st', Ok (quoted_refund seats_to_cancel)).
Proof.
  intros Hops Ht Hb Hmembers. set (st := run ops init_state) in *.
  pose proof (all_priced_run ops init_state Hops all_priced_init) as Hpriced.
  fold st in Hpriced.
  destruct (cancel_seats_booked ticket_id seats_to_cancel st t Ht Hb)
    as (st' & Hcall & _).
  exists st'. rewrite Hcall. do 2 f_equal. unfold quoted_refund. f_equal.
  clear Hcall. induction Hmembers as [|s cs Hs Hcs IH]; [done|].
  cbn [omap list_omap]. rewrite fmap_cons, <-IH.
  rewrite get_seats_for_ticket_Permutation in Hs.
  apply list_elem_of_fmap in Hs as (ts & -> & Hts).
  destruct (stored_price (db st) ticket_id (seat_pos ts)) as [price|] eqn:Hsp.
  - apply stored_price_Some in Hsp as (ts' & Hin' & _ & [= Hr Hc] & <-).
    simpl. by rewrite (Hpriced ts' Hin'), Hr.
  - exfalso. rewrite stored_price_None in Hsp.
    apply list_elem_of_filter in Hts as [Hid Hin]. by apply (Hsp ts).
Qed.

Lemma quoted_refund_is_paid_witness :
  Forall op_source
    [BookSeats get_price 5 "asha" "9876543210" [(0, 0); (3, 3)] 7 7]
  ∧ ticket (db (run [BookSeats get_price 5 "asha" "9876543210"
                       [(0, 0); (3, 3)] 7 7] init_state)) !! 1
    = Some (mkTicket 5 "asha" "9876543210" BOOKED 250)
  ∧ Forall (λ s, s ∈ get_seats_for_ticket
                       (db (run [BookSeats get_price 5 "asha" "9876543210"
                                   [(0, 0); (3, 3)] 7 7] init_state)) 1)
      [(3, 3)]
  ∧ ∃ st',
      cancel_seats 1 [(3, 3)]
        (run [BookSeats get_price 5 "asha" "9876543210" [(0, 0); (3, 3)] 7 7]
           init_state)
      = (st', Ok (quoted_refund [(3, 3)])).
Proof.
  assert (Forall op_source
            [BookSeats get_price 5 "asha" "9876543210" [(0, 0); (3, 3)] 7 7])
    as Hops.
  { repeat constructor. }
  assert (ticket (db (run [BookSeats get_price 5 "asha" "9876543210"
                             [(0, 0); (3, 3)] 7 7] init_state)) !! 1
          = Some (mkTicket 5 "asha" "9876543210" BOOKED 250)) as Ht.
  { vm_compute. reflexivity. }
  assert (Forall (λ s, s ∈ get_seats_for_ticket
                             (db (run [BookSeats get_price 5 "asha"
                                         "9876543210" [(0, 0); (3, 3)] 7 7]
                                    init_state)) 1)
            [(3, 3)]) as Hmembers.
  { constructor; [|constructor]. vm_compute. right. left. }
  split; [exact Hops|]. split; [exact Ht|]. split; [exact Hmembers|].
  exact (quoted_refund_is_paid _ 1 _ [(3, 3)] Hops Ht eq_refl Hmembers).
Defined.
